(** * Slideshow command builder (ffmpeg.py): model and verified properties

    The program probes the duration of each audio file with ffprobe, builds
    one ffmpeg argument list (image inputs, audio inputs, a filter graph
    with a centred text overlay, fixed encoder options) and runs it.

    Modelling conventions.
    - A Python [str] is a Rocq [string], read as the UTF-8 encoding of the
      text.  Every string operation of the program (concatenation, [join],
      [replace] of a one-character ASCII pattern, [str] of an [int], the
      ASCII-only safety test of [shlex.quote]) acts on the encoded text
      exactly as it acts on the code points.
    - A Python [float] is a [spec_float] (IEEE 754 binary64 values).
    - [sys.exit], raised exceptions and the external processes are explicit:
      a computation threads the trace of events it has produced and ends in
      a value, a raised exception or a process exit. *)

From Stdlib Require Import List Bool Arith ZArith Lia.
From Stdlib Require Import Ascii String.
From Stdlib Require Import DecimalString DecimalNat.
From Stdlib Require Import Floats.SpecFloat.
Import ListNotations.

Local Open Scope list_scope.
Local Open Scope string_scope.

(** ** Python string primitives *)

Module Py.

(** The double quote, apostrophe, backslash and newline characters. *)
Definition DQUOTE : ascii := "034"%char.
Definition APOS : ascii := "039"%char.
Definition BACKSLASH : ascii := "092"%char.
Definition NEWLINE : ascii := "010"%char.

(** [str(n)] for a non-negative [int]. *)
Definition str_of_nat (n : nat) : string :=
  NilEmpty.string_of_uint (Nat.to_uint n).

(** [sep.join(parts)]. *)
Definition join (sep : string) (parts : list string) : string :=
  String.concat sep parts.

(** [s.replace(old, new)] for a non-empty pattern [old]: the occurrences of
    [old] are found from left to right and do not overlap.  [skip] counts the
    characters of a matched occurrence that are still to be dropped. *)
Fixpoint replace_from (old new : string) (skip : nat) (s : string) : string :=
  match s with
  | EmptyString => EmptyString
  | String c s' =>
      match skip with
      | S k => replace_from old new k s'
      | O =>
          if String.prefix old s
          then new ++ replace_from old new (String.length old - 1) s'
          else String c (replace_from old new 0 s')
      end
  end.

Definition replace (old new s : string) : string := replace_from old new 0 s.

(** [shlex.quote]: the characters that need no quoting are the ASCII word
    characters and [@%+=:,./-]. *)
Definition is_safe_char (c : ascii) : bool :=
  let n := nat_of_ascii c in
  ((48 <=? n)%nat && (n <=? 57)%nat)
  || ((65 <=? n)%nat && (n <=? 90)%nat)
  || ((97 <=? n)%nat && (n <=? 122)%nat)
  || (n =? 95)%nat
  || existsb (Ascii.eqb c) (list_ascii_of_string "@%+=:,./-").

Fixpoint find_unsafe (s : string) : option ascii :=
  match s with
  | EmptyString => None
  | String c s' => if is_safe_char c then find_unsafe s' else Some c
  end.

(** The text ['"'"'] that stands for an apostrophe inside single quotes. *)
Definition quoted_apos : string :=
  String APOS (String DQUOTE (String APOS (String DQUOTE (String APOS "")))).

Definition shlex_quote (s : string) : string :=
  match s with
  | EmptyString => "''"
  | _ =>
      match find_unsafe s with
      | None => s
      | Some _ => "'" ++ replace "'" quoted_apos s ++ "'"
      end
  end.

End Py.

(** ** Values, exceptions and effects *)

(** A Python [float]. *)
Definition float : Type := spec_float.

(** [float(n)] for an [int]: round to nearest even in binary64; a value too
    large for a finite float raises [OverflowError] (here [None]). *)
Definition float_of_Z (z : Z) : option float :=
  match binary_normalize 53 1024 z 0 false with
  | S754_infinity _ => None
  | f => Some f
  end.

(** [0.0 <= f]; false for a nan. *)
Definition nonnegative (f : float) : bool := SFleb (S754_zero false) f.

(** What [json.loads] returns. *)
#[local] Set Warnings "-register-all".
Inductive json : Type :=
| JNone
| JBool (b : bool)
| JInt (z : Z)
| JFloat (f : float)
| JStr (s : string)
| JList (items : list json)
| JDict (items : list (string * json)).
#[local] Set Warnings "register-all".

Inductive exn : Type :=
| FileNotFoundError
| CalledProcessError (cmd : list string) (returncode : Z) (out err : string)
| JSONDecodeError
| KeyError (key : string)
| TypeError
| ValueError
| OverflowError
| IndexError
| RecursionError
| OtherError.

(** How a computation ends: with a value, with a raised exception, or with
    [sys.exit(code)]. *)
Inductive outcome (A : Type) : Type :=
| Val (a : A)
| Raise (e : exn)
| SysExit (code : Z).
Arguments Val {A} a.
Arguments Raise {A} e.
Arguments SysExit {A} code.

Inductive stream : Type := Stdout | Stderr.

(** A printed line: its exact text, or a text followed by [str(e)] of an
    exception, which the model does not spell out. *)
Inductive line : Type :=
| Text (s : string)
| TextExn (s : string) (e : exn).

(** The observable events of a run: an external tool is invoked with an
    argument list, or a line is printed. *)
Inductive event : Type :=
| Invoke (argv : list string)
| Print (to : stream) (l : line).

(** What [subprocess.run(argv, capture_output=True, text=True, check=True)]
    meets: no such executable, a non-zero exit status, exit status 0 with
    the captured output and error texts, or any other failure to run it. *)
Inductive run_result : Type :=
| NotFound
| Failed (returncode : Z) (out err : string)
| Completed (out err : string)
| Broken.

(** The computations of the program: the trace so far goes in, the extended
    trace and the outcome come out. *)
Definition M (A : Type) : Type := list event -> list event * outcome A.

Definition ret {A} (a : A) : M A := fun h => (h, Val a).

Definition bind {A B} (m : M A) (k : A -> M B) : M B :=
  fun h =>
    match m h with
    | (h', Val a) => k a h'
    | (h', Raise e) => (h', Raise e)
    | (h', SysExit c) => (h', SysExit c)
    end.

Definition lift {A} (o : outcome A) : M A := fun h => (h, o).

Definition print (to : stream) (l : line) : M unit :=
  fun h => ((h ++ [Print to l])%list, Val tt).

Definition sys_exit {A} (code : Z) : M A := fun h => (h, SysExit code).

(** [try: body except ...]: [handler e] is the matching clause, if any. *)
Definition try_except {A} (body : M A) (handler : exn -> option (M A)) : M A :=
  fun h =>
    match body h with
    | (h', Raise e) =>
        match handler e with
        | Some k => k h'
        | None => (h', Raise e)
        end
    | r => r
    end.

Declare Scope monad_scope.
Delimit Scope monad_scope with monad.
Notation "x <- m ;; k" := (bind m (fun x => k))
  (at level 61, m at next level, right associativity) : monad_scope.
Notation "m ;; k" := (bind m (fun _ => k))
  (at level 61, right associativity) : monad_scope.
Local Open Scope monad_scope.

(** [for x in xs: s = body(s, x)]. *)
Fixpoint for_each {A B} (xs : list A) (body : B -> A -> M B) (s : B) : M B :=
  match xs with
  | [] => ret s
  | x :: xs' => s' <- body s x ;; for_each xs' body s'
  end.

Definition enumerate {A} (xs : list A) : list (nat * A) :=
  combine (seq 0 (List.length xs)) xs.

Fixpoint lookup (key : string) (items : list (string * json)) : option json :=
  match items with
  | [] => None
  | (k, v) :: items' => if String.eqb k key then Some v else lookup key items'
  end.

(** [v[key]] for a [str] key: only a [dict] can be indexed by it. *)
Definition getitem (v : json) (key : string) : outcome json :=
  match v with
  | JDict items =>
      match lookup key items with
      | Some x => Val x
      | None => Raise (KeyError key)
      end
  | _ => Raise TypeError
  end.

(** [xs[i]] for a list. *)
Definition index {A} (xs : list A) (i : nat) : outcome A :=
  match nth_error xs i with
  | Some x => Val x
  | None => Raise IndexError
  end.

(** ** The program *)

(** Why [json.loads] raises on a text: the text is not JSON
    ([JSONDecodeError]); an integer in it has more digits than the
    interpreter converts (a plain [ValueError]); it is nested deeper than the
    interpreter recurses ([RecursionError]). *)
Inductive loads_failure : Type :=
| NotJSON
| DigitLimit
| TooDeep.

Definition loads_exn (f : loads_failure) : exn :=
  match f with
  | NotJSON => JSONDecodeError
  | DigitLimit => ValueError
  | TooDeep => RecursionError
  end.

(** The environment of a run: what running an argument list meets, given the
    trace so far; [json.loads] ([None]: it raises, and [loads_raises] says
    why); [float] of a [str] ([None]: [ValueError]); [str] of a [float]. *)
Record env : Type := {
  spawn : list event -> list string -> run_result;
  json_loads : string -> option json;
  loads_raises : string -> loads_failure;
  float_of_str : string -> option float;
  str_of_float : float -> string
}.

Section Program.

Variable w : env.

(** [subprocess.run(argv, capture_output=True, text=True, check=True)]:
    the captured output and error texts of a run that exits with status 0. *)
Definition subprocess_run (argv : list string) : M (string * string) :=
  fun h =>
    let h' := (h ++ [Invoke argv])%list in
    match spawn w h argv with
    | NotFound => (h', Raise FileNotFoundError)
    | Failed code out err => (h', Raise (CalledProcessError argv code out err))
    | Completed out err => (h', Val (out, err))
    | Broken => (h', Raise OtherError)
    end.

Definition loads (s : string) : outcome json :=
  match json_loads w s with
  | Some v => Val v
  | None => Raise (loads_exn (loads_raises w s))
  end.

(** [float(v)]. *)
Definition py_float (v : json) : outcome float :=
  match v with
  | JFloat f => Val f
  | JInt z =>
      match float_of_Z z with
      | Some f => Val f
      | None => Raise OverflowError
      end
  | JBool b =>
      match float_of_Z (if b then 1 else 0) with
      | Some f => Val f
      | None => Raise OverflowError
      end
  | JStr s =>
      match float_of_str w s with
      | Some f => Val f
      | None => Raise ValueError
      end
  | JNone | JList _ | JDict _ => Raise TypeError
  end.

Definition probe_command (filepath : string) : list string :=
  ["ffprobe"; "-v"; "error"; "-show_entries"; "format=duration";
   "-of"; "json"; filepath].

Definition tool_missing (tool : string) : string :=
  "Error: " ++ tool
  ++ " not found. Please ensure FFmpeg/FFprobe is installed and in your PATH.".

Definition get_duration (filepath : string) : M float :=
  let command := probe_command filepath in
  try_except
    (result <- subprocess_run command ;;
     metadata <- lift (loads (fst result)) ;;
     format <- lift (getitem metadata "format") ;;
     value <- lift (getitem format "duration") ;;
     duration <- lift (py_float value) ;;
     ret duration)
    (fun e =>
       match e with
       | FileNotFoundError =>
           Some (print Stderr (Text (tool_missing "ffprobe")) ;;
                 sys_exit 1)
       | CalledProcessError _ _ _ err =>
           Some (print Stderr
                   (TextExn ("Error running ffprobe on " ++ filepath ++ ": ") e) ;;
                 print Stderr (Text ("stderr: " ++ err)) ;;
                 sys_exit 1)
       | JSONDecodeError | KeyError _ =>
           Some (print Stderr
                   (TextExn ("Error parsing ffprobe output for " ++ filepath ++ ": ") e) ;;
                 sys_exit 1)
       | _ => None
       end).

(** The stream references of the two concat clauses. *)
Definition video_concat_inputs (num_files : nat) : string :=
  Py.join "" (map (fun i => "[" ++ Py.str_of_nat i ++ ":v]") (seq 0 num_files)).

Definition audio_concat_inputs (num_files : nat) : string :=
  Py.join ""
    (map (fun i => "[" ++ Py.str_of_nat (num_files + i) ++ ":a]") (seq 0 num_files)).

Definition escaped_font_file (font_file : string) : string :=
  Py.replace "'" "\'" (Py.replace "\" "\\" (Py.shlex_quote font_file)).

Definition escaped_text_content (text_content : string) : string :=
  Py.replace "," "\,"
    (Py.replace "]" "\]"
       (Py.replace "[" "\["
          (Py.replace ":" "\:"
             (Py.replace "'" "\'" text_content)))).

(** The four pieces of the filter graph, one per line of the source. *)
Definition video_clause (num_files : nat) : string :=
  video_concat_inputs num_files
  ++ "concat=n=" ++ Py.str_of_nat num_files ++ ":v=1:a=0[v_slideshow]; ".

Definition audio_clause (num_files : nat) : string :=
  audio_concat_inputs num_files
  ++ "concat=n=" ++ Py.str_of_nat num_files ++ ":v=0:a=1[a_combined]; ".

Definition text_clause (font_file text_content : string) : string :=
  "[v_slideshow]drawtext=text='" ++ escaped_text_content text_content
  ++ "':fontfile='" ++ escaped_font_file font_file
  ++ "':fontsize=48:fontcolor=white:x=(w-text_w)/2:y=(h-text_h)/2[v_text]; ".

Definition merge_clause : string :=
  "[v_text][a_combined] விகித=shortest=1".

Definition filter_complex (num_files : nat) (font_file text_content : string)
  : string :=
  video_clause num_files
  ++ audio_clause num_files
  ++ text_clause font_file text_content
  ++ merge_clause.

Definition output_options (output_path : string) : list string :=
  ["-c:v"; "libx264"; "-preset"; "medium"; "-crf"; "23";
   "-c:a"; "aac"; "-b:a"; "128k"; "-shortest"; "-y"; output_path].

(** The construction of [ffmpeg_command], step 2 of [create_slideshow]. *)
Definition ffmpeg_command (image_paths audio_paths : list string)
    (audio_durations : list float) (output_path font_file text_content : string)
  : M (list string) :=
  let num_files := List.length image_paths in
  cmd <- for_each (enumerate image_paths)
           (fun cmd '(i, img_path) =>
              d <- lift (index audio_durations i) ;;
              ret (cmd ++ ["-loop"; "1"; "-t"; str_of_float w d; "-i"; img_path])%list)
           ["ffmpeg"] ;;
  cmd <- for_each audio_paths
           (fun cmd audio_path => ret (cmd ++ ["-i"; audio_path])%list)
           cmd ;;
  let cmd := (cmd ++ ["-filter_complex";
                      filter_complex num_files font_file text_content])%list in
  ret (cmd ++ output_options output_path)%list.

(** Step 1 of [create_slideshow]: the durations, one probe per audio
    file, in input order. *)
Definition get_audio_durations (num_files : nat) (audio_paths : list string)
  : M (list float) :=
  for_each (enumerate audio_paths)
    (fun durations '(i, audio_path) =>
       print Stdout
         (Text ("  Processing audio file " ++ Py.str_of_nat (i + 1) ++ "/"
                ++ Py.str_of_nat num_files ++ ": " ++ audio_path)) ;;
       duration <- get_duration audio_path ;;
       ret (durations ++ [duration])%list)
    [].

(** Step 3 of [create_slideshow]: run the command and report. *)
Definition execute_ffmpeg (command : list string) (output_path : string)
  : M unit :=
  try_except
    (process <- subprocess_run command ;;
     print Stdout (Text (String Py.NEWLINE "FFmpeg process finished successfully.")) ;;
     print Stdout (Text ("Output saved to: " ++ output_path)))
    (fun e =>
       match e with
       | FileNotFoundError =>
           Some (print Stderr (Text (tool_missing "ffmpeg")) ;;
                 sys_exit 1)
       | CalledProcessError _ _ out err =>
           Some (print Stderr (TextExn "Error running FFmpeg command: " e) ;;
                 print Stderr (Text ("FFmpeg stdout:" ++ String Py.NEWLINE out)) ;;
                 print Stderr (Text ("FFmpeg stderr:" ++ String Py.NEWLINE err)) ;;
                 sys_exit 1)
       | _ =>
           Some (print Stderr (TextExn "An unexpected error occurred: " e) ;;
                 sys_exit 1)
       end).

Definition create_slideshow (image_paths audio_paths : list string)
    (output_path font_file text_content : string) : M unit :=
  let num_files := List.length image_paths in
  if negb (num_files =? List.length audio_paths)%nat then
    print Stderr
      (Text "Error: The number of image files and audio files must be the same.") ;;
    sys_exit 1
  else if (num_files =? 0)%nat then
    print Stderr (Text "Error: No input files provided.") ;;
    sys_exit 1
  else
    print Stdout (Text "Getting audio durations using ffprobe...") ;;
    audio_durations <- get_audio_durations num_files audio_paths ;;
    print Stdout (Text "Audio durations obtained.") ;;
    command <- ffmpeg_command image_paths audio_paths audio_durations
                 output_path font_file text_content ;;
    print Stdout (Text (String Py.NEWLINE "Executing FFmpeg command...")) ;;
    print Stdout (Text (Py.join " " (map Py.shlex_quote command))) ;;
    execute_ffmpeg command output_path.

End Program.

(** ** Reading the model back *)

(** [subst_char f s] replaces every character [c] of [s] by the text [f c]. *)
Fixpoint subst_char (f : ascii -> string) (s : string) : string :=
  match s with
  | EmptyString => EmptyString
  | String c s' => f c ++ subst_char f s'
  end.

(** [backslash_before p c]: the character [c], preceded by one backslash when
    [p c] holds. *)
Definition backslash_before (p : ascii -> bool) (c : ascii) : string :=
  if p c then String Py.BACKSLASH (String c "") else String c "".

(** The characters the text escaping and the font-path escaping act on. *)
Definition text_special (c : ascii) : bool :=
  existsb (Ascii.eqb c) (list_ascii_of_string "':[],").

Definition font_special (c : ascii) : bool :=
  existsb (Ascii.eqb c) [Py.BACKSLASH; Py.APOS].

Definition digit_of (c : ascii) : option nat :=
  let n := nat_of_ascii c in
  if ((48 <=? n) && (n <=? 57))%nat then Some (n - 48)%nat else None.

(** A reader of a run of stream references [[i:k]], as the filter graph
    reads them: [i] is the input index in decimal, [k] the stream kind. *)
Inductive reader : Type :=
| Opening
| Index (seen : bool) (i : nat)
| Kind (i : nat)
| Closing (i : nat) (k : ascii).

Fixpoint stream_refs_from (st : reader) (s : string) : option (list (nat * ascii)) :=
  match s with
  | EmptyString =>
      match st with
      | Opening => Some []
      | _ => None
      end
  | String c s' =>
      match st with
      | Opening =>
          if Ascii.eqb c "[" then stream_refs_from (Index false 0) s' else None
      | Index seen i =>
          match digit_of c with
          | Some d => stream_refs_from (Index true (d + 10 * i)) s'
          | None =>
              if seen && Ascii.eqb c ":" then stream_refs_from (Kind i) s' else None
          end
      | Kind i => stream_refs_from (Closing i c) s'
      | Closing i k =>
          if Ascii.eqb c "]"
          then option_map (cons (i, k)) (stream_refs_from Opening s')
          else None
      end
  end.

Definition stream_refs (s : string) : option (list (nat * ascii)) :=
  stream_refs_from Opening s.

(** The last character of a text. *)
Fixpoint last_char (s : string) : option ascii :=
  match s with
  | EmptyString => None
  | String c EmptyString => Some c
  | String _ s' => last_char s'
  end.

(** A filter graph made of four clauses, each closed by a semicolon and a
    space. *)
Definition four_terminated_clauses (graph : string) : Prop :=
  exists c1 c2 c3 c4 : string,
    graph = (c1 ++ "; ") ++ (c2 ++ "; ") ++ (c3 ++ "; ") ++ (c4 ++ "; ").

(** The argument lists of the external invocations of a trace, in order. *)
Definition invocations (t : list event) : list (list string) :=
  flat_map (fun e => match e with Invoke argv => [argv] | Print _ _ => [] end) t.

(** The input declaration of an image shown for [d] seconds, and of an audio
    file. *)
Definition image_input (w : env) (p : float * string) : list string :=
  ["-loop"; "1"; "-t"; str_of_float w (fst p); "-i"; snd p].

Definition audio_input (audio_path : string) : list string :=
  ["-i"; audio_path].

(** The encode argument list as the specification describes it: the image
    declarations, the audio declarations, the filter graph, the fixed
    options and the output path. *)
Definition encode_arguments (w : env) (image_paths audio_paths : list string)
    (durations : list float) (output_path font_file text_content : string)
  : list string :=
  (["ffmpeg"]
   ++ flat_map (image_input w) (combine durations image_paths)
   ++ flat_map audio_input audio_paths
   ++ ["-filter_complex";
       filter_complex (List.length image_paths) font_file text_content]
   ++ output_options output_path)%list.

(** What the prober reads in the output text of a probe. *)
Definition duration_in (w : env) (out : string) : outcome float :=
  match loads w out with
  | Val metadata =>
      match getitem metadata "format" with
      | Val format =>
          match getitem format "duration" with
          | Val value => py_float w value
          | Raise e => Raise e
          | SysExit c => SysExit c
          end
      | Raise e => Raise e
      | SysExit c => SysExit c
      end
  | Raise e => Raise e
  | SysExit c => SysExit c
  end.

(** The probe of [filepath], started after the trace [h], yields [d]. *)
Definition probe_yields (w : env) (h : list event) (filepath : string) (d : float)
  : Prop :=
  exists out err,
    spawn w h (probe_command filepath) = Completed out err
    /\ duration_in w out = Val d.


(** The progress line printed before the probe of the [i]-th audio file. *)
Definition progress_line (num_files i : nat) (audio_path : string) : event :=
  Print Stdout
    (Text ("  Processing audio file " ++ Py.str_of_nat (i + 1) ++ "/"
           ++ Py.str_of_nat num_files ++ ": " ++ audio_path)).

(** ** Reading texts back *)

(** [all_chars q s]: every character of [s] satisfies [q]. *)
Fixpoint all_chars (q : ascii -> bool) (s : string) : bool :=
  match s with
  | EmptyString => true
  | String c s' => q c && all_chars q s'
  end.

(** How the filter graph reads an escaped value: a backslash is dropped and
    the character after it is taken as it is. *)
Fixpoint unescape_from (escaped : bool) (s : string) : string :=
  match s with
  | EmptyString => EmptyString
  | String c s' =>
      if escaped then String c (unescape_from false s')
      else if Ascii.eqb c Py.BACKSLASH then unescape_from true s'
      else String c (unescape_from false s')
  end.

Definition unescape (s : string) : string := unescape_from false s.

(** Splitting a command line into words as a POSIX shell (and
    [shlex.split]) does: blanks separate words; between apostrophes every
    character is literal; between double quotes a backslash only escapes a
    double quote or a backslash; elsewhere a backslash makes the next
    character literal.  [None]: a quote or an escape is left open. *)
Inductive shell_mode : Type :=
| Plain
| Single
| Double
| Escaped
| DoubleEscaped.

Definition is_blank (c : ascii) : bool :=
  existsb (Ascii.eqb c) [" "%char; "009"%char; "010"%char; "013"%char].

Definition snoc (cur : string) (c : ascii) : string := cur ++ String c "".

Fixpoint split_from (m : shell_mode) (in_word : bool) (cur : string) (s : string)
  : option (list string) :=
  match s with
  | EmptyString =>
      match m with
      | Plain => Some (if in_word then [cur] else [])
      | _ => None
      end
  | String c s' =>
      match m with
      | Plain =>
          if is_blank c then
            if in_word
            then option_map (cons cur) (split_from Plain false "" s')
            else split_from Plain false "" s'
          else if Ascii.eqb c Py.APOS then split_from Single true cur s'
          else if Ascii.eqb c Py.DQUOTE then split_from Double true cur s'
          else if Ascii.eqb c Py.BACKSLASH then split_from Escaped true cur s'
          else split_from Plain true (snoc cur c) s'
      | Single =>
          if Ascii.eqb c Py.APOS then split_from Plain true cur s'
          else split_from Single true (snoc cur c) s'
      | Double =>
          if Ascii.eqb c Py.DQUOTE then split_from Plain true cur s'
          else if Ascii.eqb c Py.BACKSLASH then split_from DoubleEscaped true cur s'
          else split_from Double true (snoc cur c) s'
      | Escaped => split_from Plain true (snoc cur c) s'
      | DoubleEscaped =>
          if Ascii.eqb c Py.DQUOTE || Ascii.eqb c Py.BACKSLASH
          then split_from Double true (snoc cur c) s'
          else split_from Double true (snoc (snoc cur Py.BACKSLASH) c) s'
      end
  end.

Definition shell_split (s : string) : option (list string) :=
  split_from Plain false "" s.

(** The input files of an encoder argument list, in the order of their
    input indices: after the program name, [-loop] and [-t] take one value
    each, [-i] declares an input, and the first other argument ends the
    inputs. *)
Inductive arg_state : Type :=
| AtFlag
| AtValue
| AtInput.

Fixpoint inputs_from (st : arg_state) (argv : list string) : list string :=
  match argv with
  | [] => []
  | a :: rest =>
      match st with
      | AtFlag =>
          if String.eqb a "-i" then inputs_from AtInput rest
          else if String.eqb a "-loop" || String.eqb a "-t"
               then inputs_from AtValue rest
               else []
      | AtValue => inputs_from AtFlag rest
      | AtInput => a :: inputs_from AtFlag rest
      end
  end.

Definition input_files (argv : list string) : list string :=
  match argv with
  | [] => []
  | _ :: args => inputs_from AtFlag args
  end.

(** The exceptions that neither the prober nor the probing loop catches. *)
Definition uncaught (e : exn) : bool :=
  match e with
  | TypeError | ValueError | OverflowError | RecursionError | OtherError => true
  | _ => false
  end.

(** The events that one returning probe of the [i]-th file adds. *)
Definition probe_events (num_files : nat) (p : nat * string) : list event :=
  [progress_line num_files (fst p) (snd p); Invoke (probe_command (snd p))].

(** ** Sample environments *)

Definition quoted (s : string) : string :=
  String Py.DQUOTE (s ++ String Py.DQUOTE "").

(** The JSON text the probe tool prints for a file whose duration reads [d],
    and the value [json.loads] makes of it. *)
Definition probe_output (d : string) : string :=
  "{" ++ quoted "format" ++ ": {" ++ quoted "duration" ++ ": " ++ quoted d ++ "}}".

Definition probe_metadata (d : string) : json :=
  JDict [("format", JDict [("duration", JStr d)])].

(** The floats 5.0, 7.5 and -1.5. *)
Definition five : float := S754_finite false 5629499534213120 (-50).
Definition seven_and_half : float := S754_finite false 8444249301319680 (-50).
Definition minus_one_and_half : float := S754_finite true 6755399441055744 (-52).

Fixpoint argv_eqb (a b : list string) : bool :=
  match a, b with
  | [], [] => true
  | x :: a', y :: b' => String.eqb x y && argv_eqb a' b'
  | _, _ => false
  end.

(** A machine with both tools: [a.mp3] lasts 5 seconds and [b.mp3] 7.5; the
    probe reports -1.5 seconds for [reversed.mp3] and fails on [broken.mp3];
    the encoder succeeds. *)
Definition sample_spawn (h : list event) (argv : list string) : run_result :=
  if argv_eqb argv (probe_command "a.mp3") then
    Completed (probe_output "5.000000") ""
  else if argv_eqb argv (probe_command "b.mp3") then
    Completed (probe_output "7.500000") ""
  else if argv_eqb argv (probe_command "reversed.mp3") then
    Completed (probe_output "-1.500000") ""
  else if argv_eqb argv (probe_command "broken.mp3") then
    Failed 1 "" "broken.mp3: Invalid data found when processing input"
  else
    match argv with
    | "ffmpeg" :: _ => Completed "" ""
    | _ => NotFound
    end.

Definition sample_loads (s : string) : option json :=
  match find (fun d => String.eqb s (probe_output d))
          ["5.000000"; "7.500000"; "-1.500000"] with
  | Some d => Some (probe_metadata d)
  | None => None
  end.

Definition sample_float_of_str (s : string) : option float :=
  if String.eqb s "5.000000" then Some five
  else if String.eqb s "7.500000" then Some seven_and_half
  else if String.eqb s "-1.500000" then Some minus_one_and_half
  else None.

Definition sample_str_of_float (f : float) : string :=
  if SFeqb f five then "5.0"
  else if SFeqb f seven_and_half then "7.5"
  else if SFeqb f minus_one_and_half then "-1.5"
  else "nan".

Definition sample : env := {|
  spawn := sample_spawn;
  json_loads := sample_loads;
  loads_raises := fun _ => NotJSON;
  float_of_str := sample_float_of_str;
  str_of_float := sample_str_of_float
|}.

(** The same machine a second time, where the error output of the tools
    differs. *)
Definition sample_again : env := {|
  spawn := fun h argv =>
             match sample_spawn h argv with
             | Completed out _ => Completed out "deprecated pixel format used"
             | r => r
             end;
  json_loads := sample_loads;
  loads_raises := fun _ => NotJSON;
  float_of_str := sample_float_of_str;
  str_of_float := sample_str_of_float
|}.

(** A machine without the probe tool. *)
Definition no_probe_tool : env := {|
  spawn := fun _ _ => NotFound;
  json_loads := sample_loads;
  loads_raises := fun _ => NotJSON;
  float_of_str := sample_float_of_str;
  str_of_float := sample_str_of_float
|}.

(** A machine where the probe reports no duration for [stream.mp3]. *)
Definition unknown_duration : env := {|
  spawn := fun h argv =>
             if argv_eqb argv (probe_command "stream.mp3")
             then Completed (probe_output "N/A") ""
             else sample_spawn h argv;
  json_loads := fun s =>
                  if String.eqb s (probe_output "N/A")
                  then Some (probe_metadata "N/A")
                  else sample_loads s;
  loads_raises := fun _ => NotJSON;
  float_of_str := sample_float_of_str;
  str_of_float := sample_str_of_float
|}.

(** A machine where the encoder fails. *)
Definition encoder_fails : env := {|
  spawn := fun h argv =>
             match argv with
             | "ffmpeg" :: _ => Failed 1 "" "Conversion failed!"
             | _ => sample_spawn h argv
             end;
  json_loads := sample_loads;
  loads_raises := fun _ => NotJSON;
  float_of_str := sample_float_of_str;
  str_of_float := sample_str_of_float
|}.




(** The line that opens the probing step. *)
Definition probing_starts : event :=
  Print Stdout (Text "Getting audio durations using ffprobe...").

(** The lines printed between the last probe and the encoder: the end of
    the probing step and the command line about to run. *)
Definition encode_announced (command : list string) : list event :=
  [Print Stdout (Text "Audio durations obtained.");
   Print Stdout (Text (String Py.NEWLINE "Executing FFmpeg command..."));
   Print Stdout (Text (Py.join " " (map Py.shlex_quote command)))].

(** ** Facts about strings *)

Lemma append_nil_r (s : string) : s ++ "" = s.
Proof. induction s as [|c s IH]; simpl; [reflexivity | now rewrite IH]. Qed.

Lemma append_assoc (a b c : string) : (a ++ b) ++ c = a ++ (b ++ c).
Proof. induction a as [|x a IH]; simpl; [reflexivity | now rewrite IH]. Qed.

Lemma subst_char_app (f : ascii -> string) (a b : string) :
  subst_char f (a ++ b) = subst_char f a ++ subst_char f b.
Proof.
  induction a as [|c a IH]; simpl; [reflexivity|].
  now rewrite IH, append_assoc.
Qed.

Lemma subst_char_ext (f g : ascii -> string) (s : string) :
  (forall c, f c = g c) -> subst_char f s = subst_char g s.
Proof.
  intros E; induction s as [|c s IH]; simpl; [reflexivity|].
  now rewrite E, IH.
Qed.

Lemma subst_char_compose (f g : ascii -> string) (s : string) :
  subst_char g (subst_char f s) = subst_char (fun c => subst_char g (f c)) s.
Proof.
  induction s as [|c s IH]; simpl; [reflexivity|].
  now rewrite subst_char_app, IH.
Qed.

(** Replacing a one-character pattern rewrites the text character by
    character. *)
Lemma replace_char (o : ascii) (new s : string) :
  Py.replace (String o "") new s
  = subst_char (fun c => if Ascii.eqb c o then new else String c "") s.
Proof.
  unfold Py.replace.
  induction s as [|c s IH]; [reflexivity|].
  cbn [Py.replace_from subst_char String.prefix String.length Nat.sub].
  destruct (ascii_dec o c) as [->|N].
  - rewrite Ascii.eqb_refl.
    replace (String.prefix "" s) with true by (destruct s; reflexivity).
    now rewrite IH.
  - destruct (Ascii.eqb c o) eqn:E.
    + apply Ascii.eqb_eq in E; congruence.
    + simpl. now rewrite IH.
Qed.

Ltac each_ascii c :=
  destruct c as [[] [] [] [] [] [] [] []]; reflexivity.

(** ** Escaping *)

(** C3. The escaped text content is the text in which each apostrophe,
    colon, opening bracket, closing bracket and comma is preceded by one
    backslash, every other character being kept as it is. *)
Theorem escaped_text_content_spec (text_content : string) :
  escaped_text_content text_content
  = subst_char (backslash_before text_special) text_content.
Proof.
  unfold escaped_text_content.
  rewrite !replace_char, !subst_char_compose.
  apply subst_char_ext; intros c; each_ascii c.
Qed.

(** C5. The font value of the filter is the shell-quoted path in which each
    backslash and each apostrophe is preceded by one backslash: the quoting
    comes first and the escaping acts on its result. *)
Theorem escaped_font_file_spec (font_file : string) :
  escaped_font_file font_file
  = subst_char (backslash_before font_special) (Py.shlex_quote font_file).
Proof.
  unfold escaped_font_file.
  rewrite !replace_char, !subst_char_compose.
  apply subst_char_ext; intros c; each_ascii c.
Qed.

(** ** Stream references of the concat clauses *)

Lemma join_cons (x : string) (xs : list string) :
  Py.join "" (x :: xs) = x ++ Py.join "" xs.
Proof.
  unfold Py.join; destruct xs as [|y ys]; simpl; [now rewrite append_nil_r|reflexivity].
Qed.

Lemma to_uint_nonnil (n : nat) : Nat.to_uint n <> Decimal.Nil.
Proof.
  rewrite <- (DecimalNat.Unsigned.of_to n) at 1.
  rewrite DecimalNat.Unsigned.to_of.
  unfold Decimal.unorm; destruct (Decimal.nzhead (Nat.to_uint n)); discriminate.
Qed.

Ltac read_digit c n IH :=
  cbn [NilEmpty.string_of_uint append stream_refs_from Nat.of_uint_acc];
  change (digit_of c) with (Some n); cbv beta iota;
  rewrite IH by (now left); rewrite Nat.tail_mul_spec; reflexivity.

Lemma read_index (d : Decimal.uint) :
  forall (seen : bool) (acc : nat) (k : ascii) (rest : string),
    seen = true \/ d <> Decimal.Nil ->
    stream_refs_from (Index seen acc)
      (NilEmpty.string_of_uint d ++ String ":" (String k (String "]" rest)))
    = option_map (cons (Nat.of_uint_acc d acc, k)) (stream_refs_from Opening rest).
Proof.
  induction d as [|d IH|d IH|d IH|d IH|d IH|d IH|d IH|d IH|d IH|d IH];
    intros seen acc k rest Hs.
  - destruct Hs as [->|N]; [|congruence].
    cbn [NilEmpty.string_of_uint append stream_refs_from Nat.of_uint_acc].
    change (digit_of ":") with (@None nat). cbn.
    change (Ascii.eqb "]" "]") with true. reflexivity.
  - read_digit "0"%char 0%nat IH.
  - read_digit "1"%char 1%nat IH.
  - read_digit "2"%char 2%nat IH.
  - read_digit "3"%char 3%nat IH.
  - read_digit "4"%char 4%nat IH.
  - read_digit "5"%char 5%nat IH.
  - read_digit "6"%char 6%nat IH.
  - read_digit "7"%char 7%nat IH.
  - read_digit "8"%char 8%nat IH.
  - read_digit "9"%char 9%nat IH.
Qed.

(** One reference [[n:k]] in front of a text is read as [(n, k)]. *)
Lemma stream_refs_cons (n : nat) (k : ascii) (rest : string) :
  stream_refs (("[" ++ Py.str_of_nat n ++ String ":" (String k "]")) ++ rest)
  = option_map (cons (n, k)) (stream_refs rest).
Proof.
  unfold stream_refs, Py.str_of_nat.
  rewrite append_assoc. cbn [append stream_refs_from].
  change (Ascii.eqb "[" "[") with true. cbv iota.
  rewrite append_assoc. cbn [append].
  rewrite read_index by (right; apply to_uint_nonnil).
  change (Nat.of_uint_acc (Nat.to_uint n) 0) with (Nat.of_uint (Nat.to_uint n)).
  now rewrite DecimalNat.Unsigned.of_to.
Qed.

Lemma stream_refs_join (g : nat -> nat) (k : ascii) (l : list nat) :
  stream_refs
    (Py.join "" (map (fun i => "[" ++ Py.str_of_nat (g i) ++ String ":" (String k "]")) l))
  = Some (map (fun i => (g i, k)) l).
Proof.
  induction l as [|i l IH]; [reflexivity|].
  cbn [map]. rewrite join_cons, stream_refs_cons, IH. reflexivity.
Qed.

Lemma map_add_seq (k len : nat) :
  forall s, map (fun i => k + i)%nat (seq s len) = seq (k + s) len.
Proof.
  induction len as [|len IH]; intros s; [reflexivity|].
  cbn [seq map]. now rewrite IH, Nat.add_succ_r.
Qed.

(** C1. For [N] pairs, the video-concat clause opens with the references to
    the video streams of inputs [0 .. N-1], in increasing order, and the
    audio-concat clause with the references to the audio streams of inputs
    [N .. 2N-1], in increasing order; each run of references is followed by
    the concat filter itself. *)
Theorem concat_clauses_reference_inputs (N : nat) :
  stream_refs (video_concat_inputs N) = Some (map (fun i => (i, "v"%char)) (seq 0 N))
  /\ stream_refs (audio_concat_inputs N) = Some (map (fun i => (i, "a"%char)) (seq N N))
  /\ video_clause N
     = video_concat_inputs N ++ "concat=n=" ++ Py.str_of_nat N ++ ":v=1:a=0[v_slideshow]; "
  /\ audio_clause N
     = audio_concat_inputs N ++ "concat=n=" ++ Py.str_of_nat N ++ ":v=0:a=1[a_combined]; ".
Proof.
  repeat split.
  - unfold video_concat_inputs.
    now rewrite (stream_refs_join (fun i => i) "v").
  - unfold audio_concat_inputs.
    rewrite (stream_refs_join (fun i => N + i)%nat "a").
    f_equal. rewrite <- (map_map (fun i => N + i)%nat (fun j => (j, "a"%char))).
    now rewrite map_add_seq, Nat.add_0_r.
Qed.

(** ** The four clauses of the filter graph *)

Lemma last_char_app (a : string) (c : ascii) (b : string) :
  last_char (a ++ String c b) = last_char (String c b).
Proof.
  induction a as [|x a IH]; [reflexivity|].
  cbn [append]. rewrite <- IH.
  cbn [last_char]. destruct (a ++ String c b) eqn:E; [|reflexivity].
  destruct a; discriminate.
Qed.

(** C2, as the code has it. The filter graph is the video-concat clause, the
    audio-concat clause, the text-overlay clause and the merge clause, in
    this order; the first three are each closed by a semicolon and a space,
    and the merge clause, which joins [[v_text]] and [[a_combined]] and is
    bounded by the shortest stream, closes the graph with no terminator. *)
Theorem filter_complex_clauses (N : nat) (font_file text_content : string) :
  filter_complex N font_file text_content
  = ((video_concat_inputs N ++ "concat=n=" ++ Py.str_of_nat N
      ++ ":v=1:a=0[v_slideshow]") ++ "; ")
    ++ ((audio_concat_inputs N ++ "concat=n=" ++ Py.str_of_nat N
         ++ ":v=0:a=1[a_combined]") ++ "; ")
    ++ (("[v_slideshow]drawtext=text='" ++ escaped_text_content text_content
         ++ "':fontfile='" ++ escaped_font_file font_file
         ++ "':fontsize=48:fontcolor=white:x=(w-text_w)/2:y=(h-text_h)/2[v_text]")
        ++ "; ")
    ++ merge_clause
  /\ String.prefix "[v_text][a_combined] " merge_clause = true
  /\ String.substring (String.length merge_clause - 11) 11 merge_clause = "=shortest=1"
  /\ last_char (filter_complex N font_file text_content) = Some "1"%char.
Proof.
  assert (E : forall a b c : string, a ++ b ++ c = (a ++ b) ++ c)
    by (intros; now rewrite append_assoc).
  repeat split.
  - unfold filter_complex, video_clause, audio_clause, text_clause.
    rewrite !append_assoc. reflexivity.
  - unfold filter_complex.
    rewrite !E.
    change merge_clause
      with (String.substring 0 46 merge_clause ++ String "1" "").
    rewrite E. apply last_char_app.
Qed.

(** C2, as the claim words it, fails: the graph built for two pairs does not
    consist of four clauses that each end in a semicolon and a space. *)
Lemma filter_complex_last_clause_open :
  ~ four_terminated_clauses (filter_complex 2 "font.ttf" "Hi:there").
Proof.
  intros (c1 & c2 & c3 & c4 & E).
  apply (f_equal last_char) in E.
  rewrite <- !append_assoc in E.
  change (?x ++ "; ") with (x ++ String ";" (String " " "")) in E.
  rewrite last_char_app in E.
  vm_compute in E. discriminate E.
Qed.

(** ** Escaped values read back *)

Lemma text_escaping_by_char (text_content : string) :
  escaped_text_content text_content
  = subst_char (backslash_before text_special) text_content.
Proof.
  unfold escaped_text_content.
  rewrite !replace_char, !subst_char_compose.
  apply subst_char_ext; intros c; each_ascii c.
Qed.

Lemma font_escaping_by_char (font_file : string) :
  escaped_font_file font_file
  = subst_char (backslash_before font_special) (Py.shlex_quote font_file).
Proof.
  unfold escaped_font_file.
  rewrite !replace_char, !subst_char_compose.
  apply subst_char_ext; intros c; each_ascii c.
Qed.

Lemma subst_char_unchanged (p : ascii -> bool) (s : string) :
  all_chars (fun c => negb (p c)) s = true ->
  subst_char (backslash_before p) s = s.
Proof.
  induction s as [|c s IH]; [reflexivity|].
  cbn [all_chars subst_char]. intros H.
  apply andb_true_iff in H. destruct H as [Hc Hs].
  unfold backslash_before at 1. apply negb_true_iff in Hc. rewrite Hc.
  cbn [append]. now rewrite IH.
Qed.

Lemma unescape_escaped (p : ascii -> bool) (s : string) :
  all_chars (fun c => negb (Ascii.eqb c Py.BACKSLASH) || p c) s = true ->
  unescape (subst_char (backslash_before p) s) = s.
Proof.
  unfold unescape.
  induction s as [|c s IH]; [reflexivity|].
  cbn [all_chars subst_char]. intros H.
  apply andb_true_iff in H. destruct H as [Hc Hs].
  unfold backslash_before at 1. destruct (p c) eqn:P.
  - cbn [append unescape_from]. rewrite Ascii.eqb_refl.
    cbn [unescape_from]. now rewrite IH.
  - rewrite orb_false_r in Hc. apply negb_true_iff in Hc.
    cbn [append unescape_from]. rewrite Hc. now rewrite IH.
Qed.

(** X1. A text without a backslash is read back unchanged from its escaped
    form: dropping each escaping backslash gives the text again. *)
Theorem escaped_text_reads_back (text_content : string) :
  all_chars (fun c => negb (Ascii.eqb c Py.BACKSLASH)) text_content = true ->
  unescape (escaped_text_content text_content) = text_content.
Proof.
  intros H. rewrite text_escaping_by_char. apply unescape_escaped.
  clear -H. induction text_content as [|c s IH]; [reflexivity|].
  cbn [all_chars] in *. apply andb_true_iff in H. destruct H as [Hc Hs].
  rewrite Hc, IH by exact Hs. reflexivity.
Qed.

(** The text escaping leaves backslashes alone, so a text with a backslash
    is not read back as it was. *)
Example backslash_in_text_is_lost :
  escaped_text_content "a\b" = "a\b" /\ unescape (escaped_text_content "a\b") = "ab".
Proof. split; reflexivity. Qed.

(** X2. The escaped font value always reads back as the shell-quoted path:
    unlike the text escaping, the font escaping covers the backslash. *)
Theorem escaped_font_reads_back (font_file : string) :
  unescape (escaped_font_file font_file) = Py.shlex_quote font_file.
Proof.
  rewrite font_escaping_by_char. apply unescape_escaped.
  induction (Py.shlex_quote font_file) as [|c s IH]; [reflexivity|].
  cbn [all_chars]. rewrite IH, andb_true_r.
  destruct (Ascii.eqb c Py.BACKSLASH) eqn:E; [|reflexivity].
  apply Ascii.eqb_eq in E. subst c. reflexivity.
Qed.

(** X3. A text without apostrophe, colon, bracket or comma goes into the
    filter graph as it is. *)
Theorem plain_text_verbatim (text_content : string) :
  all_chars (fun c => negb (text_special c)) text_content = true ->
  escaped_text_content text_content = text_content.
Proof.
  intros H. rewrite text_escaping_by_char. now apply subst_char_unchanged.
Qed.

Lemma safe_char_not_font_special (c : ascii) :
  Py.is_safe_char c = true -> font_special c = false.
Proof.
  destruct c as [[] [] [] [] [] [] [] []]; intros H; vm_compute in H;
    try discriminate H; reflexivity.
Qed.

Lemma find_unsafe_none (s : string) :
  Py.find_unsafe s = None -> all_chars Py.is_safe_char s = true.
Proof.
  induction s as [|c s IH]; [reflexivity|].
  cbn [Py.find_unsafe all_chars].
  destruct (Py.is_safe_char c); [exact IH | discriminate].
Qed.

(** X4. A non-empty font path made of word characters and [@%+=:,./-] goes
    into the filter graph as it is: neither quoted nor escaped. *)
Theorem safe_font_verbatim (font_file : string) :
  font_file <> "" ->
  Py.find_unsafe font_file = None ->
  escaped_font_file font_file = font_file.
Proof.
  intros NE U. rewrite font_escaping_by_char.
  assert (Q : Py.shlex_quote font_file = font_file).
  { unfold Py.shlex_quote. destruct font_file; [congruence|]. now rewrite U. }
  rewrite Q. apply subst_char_unchanged.
  apply find_unsafe_none in U. clear -U.
  induction font_file as [|c s IH]; [reflexivity|].
  cbn [all_chars] in *. apply andb_true_iff in U. destruct U as [Hc Hs].
  rewrite (safe_char_not_font_special c Hc), IH by exact Hs. reflexivity.
Qed.

(** ** The printed command line *)

Lemma split_safe_char (c : ascii) :
  Py.is_safe_char c = true ->
  forall (in_word : bool) (cur rest : string),
    split_from Plain in_word cur (String c rest)
    = split_from Plain true (snoc cur c) rest.
Proof.
  destruct c as [[] [] [] [] [] [] [] []]; intros H; vm_compute in H;
    try discriminate H; reflexivity.
Qed.

Lemma split_safe_word (s : string) :
  forall (in_word : bool) (cur rest : string),
    all_chars Py.is_safe_char s = true ->
    split_from Plain in_word cur (s ++ rest)
    = split_from Plain (in_word || negb (String.eqb s "")) (cur ++ s) rest.
Proof.
  induction s as [|c s IH]; intros in_word cur rest H.
  - cbn. now rewrite orb_false_r, append_nil_r.
  - cbn [all_chars] in H. apply andb_true_iff in H. destruct H as [Hc Hs].
    cbn [append]. rewrite (split_safe_char c Hc), IH by exact Hs.
    unfold snoc. rewrite append_assoc. cbn [append orb].
    now rewrite orb_true_r.
Qed.

Lemma split_single_char (c : ascii) (cur rest : string) :
  split_from Single true cur
    ((if Ascii.eqb c "'" then Py.quoted_apos else String c "") ++ rest)
  = split_from Single true (snoc cur c) rest.
Proof.
  destruct (Ascii.eqb c "'") eqn:E.
  - apply Ascii.eqb_eq in E. subst c. reflexivity.
  - cbn [append split_from]. change Py.APOS with "'"%char. now rewrite E.
Qed.

Lemma split_single_body (s : string) :
  forall (cur rest : string),
    split_from Single true cur (Py.replace "'" Py.quoted_apos s ++ rest)
    = split_from Single true (cur ++ s) rest.
Proof.
  rewrite replace_char.
  induction s as [|c s IH]; intros cur rest.
  - cbn. now rewrite append_nil_r.
  - cbn [subst_char]. rewrite append_assoc, split_single_char, IH.
    unfold snoc. now rewrite append_assoc.
Qed.

(** One quoted argument in front of a text is read as that argument. *)
Lemma split_quoted (x rest : string) :
  split_from Plain false "" (Py.shlex_quote x ++ rest)
  = split_from Plain true x rest.
Proof.
  unfold Py.shlex_quote. destruct x as [|c x]; [reflexivity|].
  destruct (Py.find_unsafe (String c x)) as [u|] eqn:U.
  - rewrite !append_assoc.
    change ("'" ++ ?a) with (String "'" a).
    cbn [split_from]. change (is_blank "'") with false.
    change (Ascii.eqb "'" Py.APOS) with true. cbv iota.
    rewrite split_single_body. reflexivity.
  - rewrite split_safe_word by now apply find_unsafe_none.
    reflexivity.
Qed.

(** X5. The command line printed before the encoder runs splits, as a shell
    splits it, into exactly the arguments given: every argument survives the
    quoting, whatever characters it holds. *)
Theorem quoted_command_splits_back (argv : list string) :
  shell_split (Py.join " " (map Py.shlex_quote argv)) = Some argv.
Proof.
  unfold shell_split, Py.join.
  induction argv as [|x argv IH]; [reflexivity|].
  destruct argv as [|y argv].
  - cbn [map String.concat].
    rewrite <- (append_nil_r (Py.shlex_quote x)), split_quoted. reflexivity.
  - change (String.concat " " (map Py.shlex_quote (x :: y :: argv)))
      with (Py.shlex_quote x
            ++ String " " (String.concat " " (map Py.shlex_quote (y :: argv)))).
    rewrite split_quoted. cbn [split_from].
    change (is_blank " ") with true. cbv iota.
    rewrite IH. reflexivity.
Qed.

(** ** Runs of the program *)

Section Runs.

Variable w : env.

Local Open Scope list_scope.

Lemma for_each_app {A B} (xs ys : list A) (body : B -> A -> M B) :
  forall (s : B) (h : list event),
    for_each (xs ++ ys) body s h = bind (for_each xs body s) (for_each ys body) h.
Proof.
  induction xs as [|x xs IH]; intros s h; [reflexivity|].
  cbn [app for_each]. unfold bind.
  destruct (body s x h) as [h1 [s1|e|c]]; [|reflexivity|reflexivity].
  rewrite IH. reflexivity.
Qed.

Lemma invocations_app (a b : list event) :
  invocations (a ++ b) = invocations a ++ invocations b.
Proof. apply flat_map_app. Qed.

Lemma invocations_diagnostics (msgs : list line) :
  invocations (map (Print Stderr) msgs) = [].
Proof. induction msgs as [|m msgs IH]; [reflexivity | exact IH]. Qed.

(** One probe: the tool is invoked once; a handled failure prints to the
    error stream and exits with status 1. *)
Lemma get_duration_run (filepath : string) (h : list event) :
  get_duration w filepath h
  = let h' := h ++ [Invoke (probe_command filepath)] in
    match spawn w h (probe_command filepath) with
    | NotFound =>
        (h' ++ [Print Stderr (Text (tool_missing "ffprobe"))], SysExit 1)
    | Failed code out err =>
        (h' ++ [Print Stderr
                  (TextExn ("Error running ffprobe on " ++ filepath ++ ": ")%string
                     (CalledProcessError (probe_command filepath) code out err));
                Print Stderr (Text ("stderr: " ++ err)%string)],
         SysExit 1)
    | Completed out err =>
        match duration_in w out with
        | Val d => (h', Val d)
        | Raise e =>
            match e with
            | JSONDecodeError | KeyError _ =>
                (h' ++ [Print Stderr
                          (TextExn
                             ("Error parsing ffprobe output for " ++ filepath ++ ": ")%string
                             e)],
                 SysExit 1)
            | _ => (h', Raise e)
            end
        | SysExit c => (h', SysExit c)
        end
    | Broken => (h', Raise OtherError)
    end.
Proof.
  unfold get_duration, try_except, bind, subprocess_run, lift, print, sys_exit, ret,
    duration_in, loads.
  cbv zeta.
  destruct (spawn w h (probe_command filepath)) as [|code out err|out err|];
    try reflexivity.
  - now rewrite <- app_assoc.
  - cbn [fst].
    destruct (json_loads w out) as [metadata|];
      [|destruct (loads_raises w out); reflexivity].
    destruct metadata as [| | | | | |items]; try reflexivity.
    cbn [getitem].
    destruct (lookup "format" items) as [format|]; [|reflexivity].
    destruct format as [| | | | | |fields]; try reflexivity.
    cbn [getitem].
    destruct (lookup "duration" fields) as [value|]; [|reflexivity].
    destruct value as [|b|z|f|s|l|l]; cbn [py_float]; try reflexivity.
    + destruct (float_of_Z (if b then 1 else 0)); reflexivity.
    + destruct (float_of_Z z); reflexivity.
    + destruct (float_of_str w s); reflexivity.
Qed.

(** A probe returns a value exactly when the tool ran with status 0 and the
    duration could be read in its output; nothing is printed then. *)
Lemma get_duration_val (filepath : string) (h h' : list event) (d : float) :
  get_duration w filepath h = (h', Val d)
  <-> h' = h ++ [Invoke (probe_command filepath)] /\ probe_yields w h filepath d.
Proof.
  rewrite get_duration_run. cbv zeta. unfold probe_yields.
  destruct (spawn w h (probe_command filepath)) as [|code out err|out err|].
  - split; [discriminate | intros (_ & o & e & E & _); discriminate].
  - split; [discriminate | intros (_ & o & e & E & _); discriminate].
  - destruct (duration_in w out) as [d'|e|c] eqn:D.
    + split.
      * intros E; injection E as <- <-. split; [reflexivity|]. now exists out, err.
      * intros (-> & o & e & E & D'). injection E as <- <-. congruence.
    + split.
      * destruct e; discriminate.
      * intros (_ & o & e' & E & D'). injection E as <- <-. congruence.
    + split; [discriminate|].
      intros (_ & o & e' & E & D'). injection E as <- <-. congruence.
  - split; [discriminate | intros (_ & o & e & E & _); discriminate].
Qed.

(** X14. Whatever a probe meets (a duration, a failure that is handled or
    one that is not), it has invoked the probe tool exactly once, on that
    file, and nothing else: there is no retry. *)
Lemma get_duration_invocations (filepath : string) (h : list event) :
  invocations (fst (get_duration w filepath h))
  = invocations h ++ [probe_command filepath].
Proof.
  rewrite get_duration_run. cbv zeta. unfold invocations.
  destruct (spawn w h (probe_command filepath)) as [|code out err|out err|];
    [| |destruct (duration_in w out) as [d|[]|c]|];
    cbn [fst]; rewrite ?flat_map_app; cbn [flat_map app];
    rewrite ?app_nil_r; reflexivity.
Qed.


(** ** The argument list *)

Lemma image_inputs_loop (imgs : list string) :
  forall (ds pre : list float) (cmd : list string) (h : list event),
    List.length imgs <= List.length ds ->
    for_each (combine (seq (List.length pre) (List.length imgs)) imgs)
      (fun cmd '(i, img_path) =>
         d <- lift (index (pre ++ ds) i) ;;
         ret (cmd ++ ["-loop"; "1"; "-t"; str_of_float w d; "-i"; img_path]))
      cmd h
    = (h, Val (cmd ++ flat_map (image_input w) (combine ds imgs))).
Proof.
  induction imgs as [|img imgs IH]; intros ds pre cmd h L.
  - destruct ds; cbn; now rewrite app_nil_r.
  - destruct ds as [|d ds]; [cbn in L; lia|].
    cbn [List.length seq combine for_each].
    unfold bind at 1. unfold bind at 1. unfold lift at 1, index.
    rewrite nth_error_app2, Nat.sub_diag by lia. cbn [nth_error]. unfold ret at 1.
    specialize (IH ds (pre ++ [d])).
    rewrite length_app, <- app_assoc in IH. cbn [List.length app] in IH.
    rewrite Nat.add_1_r in IH.
    rewrite IH by (cbn in L; lia).
    cbn [flat_map image_input fst snd]. now rewrite <- app_assoc.
Qed.

Lemma audio_inputs_loop (auds : list string) :
  forall (cmd : list string) (h : list event),
    for_each auds (fun cmd audio_path => ret (cmd ++ ["-i"; audio_path])) cmd h
    = (h, Val (cmd ++ flat_map audio_input auds)).
Proof.
  induction auds as [|a auds IH]; intros cmd h.
  - cbn. now rewrite app_nil_r.
  - cbn [for_each]. unfold bind, ret at 1. rewrite IH.
    cbn [flat_map audio_input]. now rewrite <- app_assoc.
Qed.

(** The command construction returns the argument list of the
    specification whenever there is a duration for every image. *)
Lemma ffmpeg_command_run (image_paths audio_paths : list string)
    (durations : list float) (output_path font_file text_content : string)
    (h : list event) :
  List.length image_paths <= List.length durations ->
  ffmpeg_command w image_paths audio_paths durations output_path font_file text_content h
  = (h, Val (encode_arguments w image_paths audio_paths durations
               output_path font_file text_content)).
Proof.
  intros L. unfold ffmpeg_command, enumerate. cbv zeta.
  unfold bind at 1.
  rewrite (image_inputs_loop image_paths durations [] _ h L).
  unfold bind at 1. rewrite audio_inputs_loop.
  unfold ret, encode_arguments. now rewrite <- !app_assoc.
Qed.

(** ** The probing loop *)

(** One turn of the loop: the progress line, then the probe. *)
Lemma probe_turn (num_files i : nat) (audio_path : string)
    (durations : list float) (h : list event) :
  (print Stdout
     (Text ("  Processing audio file " ++ Py.str_of_nat (i + 1) ++ "/"
            ++ Py.str_of_nat num_files ++ ": " ++ audio_path)%string) ;;
   duration <- get_duration w audio_path ;;
   ret (durations ++ [duration])) h
  = match get_duration w audio_path (h ++ [progress_line num_files i audio_path]) with
    | (h1, Val d) => (h1, Val (durations ++ [d]))
    | (h1, Raise e) => (h1, Raise e)
    | (h1, SysExit c) => (h1, SysExit c)
    end.
Proof.
  unfold bind, print, ret, progress_line.
  destruct (get_duration w audio_path _) as [h1 [d|e|c]]; reflexivity.
Qed.

(** When the loop returns, it has probed every audio file once, in order,
    and appended the durations in the same order. *)
Lemma durations_loop_val (num_files : nat) (l : list string) :
  forall (i : nat) (acc : list float) (h h' : list event) (out : list float),
    for_each (combine (seq i (List.length l)) l)
      (fun durations '(i, audio_path) =>
         print Stdout
           (Text ("  Processing audio file " ++ Py.str_of_nat (i + 1) ++ "/"
                  ++ Py.str_of_nat num_files ++ ": " ++ audio_path)%string) ;;
         duration <- get_duration w audio_path ;;
         ret (durations ++ [duration]))
      acc h = (h', Val out) ->
    exists ds : list float,
      out = acc ++ ds
      /\ Forall2 (fun a d => exists h1, probe_yields w h1 a d) l ds
      /\ invocations h' = invocations h ++ map probe_command l.
Proof.
  induction l as [|a l IH]; intros i acc h h' out R.
  - cbn in R. injection R as <- <-. exists []. rewrite !app_nil_r. now repeat split.
  - cbn [List.length seq combine for_each] in R.
    unfold bind at 1 in R. rewrite probe_turn in R.
    destruct (get_duration w a (h ++ [progress_line num_files i a]))
      as [h1 [d|e|c]] eqn:G; try discriminate R.
    apply IH in R. destruct R as (ds & -> & F & I).
    apply get_duration_val in G. destruct G as [-> Y].
    exists (d :: ds). rewrite <- app_assoc. split; [reflexivity|]. split.
    + constructor; [eexists; exact Y | exact F].
    + rewrite I. unfold invocations. rewrite !flat_map_app. cbn.
      rewrite app_nil_r, <- app_assoc. reflexivity.
Qed.

Lemma get_audio_durations_val (num_files : nat) (audio_paths : list string)
    (h h' : list event) (ds : list float) :
  get_audio_durations w num_files audio_paths h = (h', Val ds) ->
  Forall2 (fun a d => exists h1, probe_yields w h1 a d) audio_paths ds
  /\ invocations h' = invocations h ++ map probe_command audio_paths.
Proof.
  intros R. apply durations_loop_val in R. destruct R as (ds' & -> & F & I).
  now split.
Qed.



Lemma combine_seq_app {A} (xs ys : list A) (i : nat) :
  combine (seq i (List.length (xs ++ ys))) (xs ++ ys)
  = combine (seq i (List.length xs)) xs
    ++ combine (seq (i + List.length xs) (List.length ys)) ys.
Proof.
  revert i; induction xs as [|x xs IH]; intros i.
  - cbn. now rewrite Nat.add_0_r.
  - cbn [List.length app seq combine]. rewrite IH, Nat.add_succ_r. reflexivity.
Qed.


(** ** The whole run *)

Lemma execute_ffmpeg_invocations (command : list string) (output_path : string)
    (h : list event) :
  invocations (fst (execute_ffmpeg w command output_path h))
  = invocations h ++ [command].
Proof.
  unfold execute_ffmpeg, try_except, bind, subprocess_run, print, sys_exit, invocations.
  destruct (spawn w h command) as [|code out err|out err|];
    cbn [fst]; rewrite ?flat_map_app; cbn [flat_map app];
    rewrite ?app_nil_r; reflexivity.
Qed.

(** On equal, non-zero counts, once every probe has returned, the run goes
    on to build the argument list of the specification and to execute it. *)
Lemma create_slideshow_encodes (image_paths audio_paths : list string)
    (output_path font_file text_content : string) (h h1 : list event)
    (ds : list float) :
  List.length image_paths = List.length audio_paths ->
  image_paths <> [] ->
  get_audio_durations w (List.length image_paths) audio_paths
    (h ++ [probing_starts])
  = (h1, Val ds) ->
  let command := encode_arguments w image_paths audio_paths ds
                   output_path font_file text_content in
  create_slideshow w image_paths audio_paths output_path font_file text_content h
  = execute_ffmpeg w command output_path
      (h1 ++ [Print Stdout (Text "Audio durations obtained.");
              Print Stdout (Text (String Py.NEWLINE "Executing FFmpeg command..."));
              Print Stdout (Text (Py.join " " (map Py.shlex_quote command)))])
  /\ List.length ds = List.length audio_paths.
Proof.
  intros L NE R command. unfold probing_starts in R.
  assert (Lds : List.length ds = List.length audio_paths).
  { apply get_audio_durations_val in R. destruct R as [F _].
    symmetry. eapply Forall2_length, F. }
  split; [|exact Lds].
  unfold create_slideshow. cbv zeta.
  rewrite (proj2 (Nat.eqb_eq _ _) L). cbn [negb].
  destruct (List.length image_paths =? 0)%nat eqn:Z.
  { apply Nat.eqb_eq in Z. destruct image_paths; [congruence | discriminate Z]. }
  unfold bind at 1. unfold print at 1.
  unfold bind at 1. rewrite R.
  unfold bind at 1. unfold print at 1.
  unfold bind at 1. rewrite ffmpeg_command_run by lia.
  fold command.
  unfold bind at 1. unfold print at 1.
  unfold bind at 1. unfold print at 1.
  rewrite <- !app_assoc. reflexivity.
Qed.

(** The external invocations of such a run: the probes, then the encoder
    with the argument list of the specification. *)
Lemma create_slideshow_invocations (image_paths audio_paths : list string)
    (output_path font_file text_content : string) (h h1 : list event)
    (ds : list float) :
  List.length image_paths = List.length audio_paths ->
  image_paths <> [] ->
  get_audio_durations w (List.length image_paths) audio_paths (h ++ [probing_starts])
  = (h1, Val ds) ->
  invocations
    (fst (create_slideshow w image_paths audio_paths
            output_path font_file text_content h))
  = invocations h ++ map probe_command audio_paths
    ++ [encode_arguments w image_paths audio_paths ds
          output_path font_file text_content].
Proof.
  intros L NE R.
  destruct (create_slideshow_encodes image_paths audio_paths
              output_path font_file text_content h h1 ds L NE R) as [-> _].
  destruct (get_audio_durations_val _ _ _ _ _ R) as [_ I].
  rewrite execute_ffmpeg_invocations, invocations_app, I, invocations_app.
  cbn [invocations flat_map app]. rewrite !app_nil_r, <- !app_assoc.
  reflexivity.
Qed.

(** ** Validation *)

(** C4. When the two sequences differ in length, or both are empty, the run
    prints one diagnostic and exits with status 1; no external tool has been
    invoked: neither the probe nor the encoder. *)
Theorem invalid_counts_abort (image_paths audio_paths : list string)
    (output_path font_file text_content : string) (h : list event) :
  List.length image_paths <> List.length audio_paths
  \/ (image_paths = [] /\ audio_paths = []) ->
  (exists msg : string,
     create_slideshow w image_paths audio_paths output_path font_file text_content h
     = (h ++ [Print Stderr (Text msg)], SysExit 1))
  /\ invocations
       (fst (create_slideshow w image_paths audio_paths
               output_path font_file text_content h))
     = invocations h.
Proof.
  intros V.
  assert (E : exists msg : string,
             create_slideshow w image_paths audio_paths
               output_path font_file text_content h
             = (h ++ [Print Stderr (Text msg)], SysExit 1)).
  { unfold create_slideshow. cbv zeta.
    destruct (List.length image_paths =? List.length audio_paths)%nat eqn:L.
    - apply Nat.eqb_eq in L.
      destruct V as [V|[-> ->]]; [contradiction|].
      cbn. now eexists.
    - cbn. now eexists. }
  split; [exact E|].
  destruct E as (msg & ->). cbn [fst]. unfold invocations.
  rewrite flat_map_app. cbn. now rewrite app_nil_r.
Qed.

(** ** The encode invocation *)

(** C6. On [N] valid pairs whose probes have all returned, the encoder is
    invoked once, after the probes, and its argument list opens with one
    declaration per image, each with the loop flag and with the duration
    that the probe of the audio file at the same position has yielded,
    followed by one declaration per audio file, in input order. *)
Theorem encode_inputs_follow_pairs (image_paths audio_paths : list string)
    (output_path font_file text_content : string) (h h1 : list event)
    (ds : list float) :
  List.length image_paths = List.length audio_paths ->
  image_paths <> [] ->
  get_audio_durations w (List.length image_paths) audio_paths (h ++ [probing_starts])
  = (h1, Val ds) ->
  invocations
    (fst (create_slideshow w image_paths audio_paths
            output_path font_file text_content h))
  = invocations h ++ map probe_command audio_paths
    ++ [["ffmpeg"]
        ++ flat_map (image_input w) (combine ds image_paths)
        ++ flat_map audio_input audio_paths
        ++ ["-filter_complex";
            filter_complex (List.length image_paths) font_file text_content]
        ++ output_options output_path]
  /\ List.length (combine ds image_paths) = List.length image_paths
  /\ List.length audio_paths = List.length image_paths
  /\ Forall2 (fun a d => exists h', probe_yields w h' a d) audio_paths ds.
Proof.
  intros L NE R.
  destruct (create_slideshow_encodes image_paths audio_paths
              output_path font_file text_content h h1 ds L NE R) as [_ Lds].
  destruct (get_audio_durations_val _ _ _ _ _ R) as [F _].
  repeat split.
  - now rewrite (create_slideshow_invocations _ _ _ _ _ _ _ _ L NE R).
  - rewrite length_combine. lia.
  - lia.
  - exact F.
Qed.

(** C8. On valid input whose probes have all returned, the argument list of
    the encoder ends with the video codec, the preset, the quality value,
    the audio codec, the audio bitrate, the shortest-stream flag, the
    overwrite flag and, last, the output path. *)
Theorem encode_arguments_end_with_options (image_paths audio_paths : list string)
    (output_path font_file text_content : string) (h h1 : list event)
    (ds : list float) :
  List.length image_paths = List.length audio_paths ->
  image_paths <> [] ->
  get_audio_durations w (List.length image_paths) audio_paths (h ++ [probing_starts])
  = (h1, Val ds) ->
  exists front : list string,
    invocations
      (fst (create_slideshow w image_paths audio_paths
              output_path font_file text_content h))
    = invocations h ++ map probe_command audio_paths
      ++ [front
          ++ ["-c:v"; "libx264"; "-preset"; "medium"; "-crf"; "23";
              "-c:a"; "aac"; "-b:a"; "128k"; "-shortest"; "-y"; output_path]].
Proof.
  intros L NE R.
  exists (["ffmpeg"]
          ++ flat_map (image_input w) (combine ds image_paths)
          ++ flat_map audio_input audio_paths
          ++ ["-filter_complex";
              filter_complex (List.length image_paths) font_file text_content]).
  rewrite (create_slideshow_invocations _ _ _ _ _ _ _ _ L NE R).
  unfold encode_arguments, output_options.
  rewrite <- !app_assoc. reflexivity.
Qed.

(** ** Failing probes *)


(** ** Probed durations *)

(** C7, as the code has it. A value returned by the prober is what [float]
    makes of the [duration] entry of the [format] entry of the JSON output of
    a probe that exited with status 0; the prober compares it with nothing,
    so it is non-negative exactly when that entry is. *)
Theorem get_duration_returns_probed_value (filepath : string)
    (h h' : list event) (d : float) :
  get_duration w filepath h = (h', Val d) ->
  exists (out err : string) (metadata format value : json),
    spawn w h (probe_command filepath) = Completed out err
    /\ json_loads w out = Some metadata
    /\ getitem metadata "format" = Val format
    /\ getitem format "duration" = Val value
    /\ py_float w value = Val d.
Proof.
  intros R. apply get_duration_val in R.
  destruct R as (_ & out & err & E & D).
  exists out, err. unfold duration_in, loads in D.
  destruct (json_loads w out) as [metadata|] eqn:J; [|discriminate D].
  destruct (getitem metadata "format") as [format|e|c] eqn:G1; try discriminate D.
  destruct (getitem format "duration") as [value|e|c] eqn:G2; try discriminate D.
  exists metadata, format, value. now repeat split.
Qed.

End Runs.

(** ** Two runs *)

Local Open Scope list_scope.

Lemma encode_arguments_ext (w1 w2 : env) (image_paths audio_paths : list string)
    (ds : list float) (output_path font_file text_content : string) :
  str_of_float w1 = str_of_float w2 ->
  encode_arguments w1 image_paths audio_paths ds output_path font_file text_content
  = encode_arguments w2 image_paths audio_paths ds output_path font_file text_content.
Proof.
  intros E. unfold encode_arguments. do 2 f_equal.
  apply flat_map_ext. intros [d img]. unfold image_input. now rewrite E.
Qed.

(** C10. Two runs on the same sequences, output path, font path and text,
    whose probes have yielded the same durations, invoke the encoder with
    the same argument list, filter graph included, whatever else the two
    environments did (what the tools printed, what came before). *)
Theorem encode_arguments_deterministic (w1 w2 : env)
    (image_paths audio_paths : list string)
    (output_path font_file text_content : string)
    (h1 h2 t1 t2 : list event) (ds : list float) :
  str_of_float w1 = str_of_float w2 ->
  List.length image_paths = List.length audio_paths ->
  image_paths <> [] ->
  get_audio_durations w1 (List.length image_paths) audio_paths (h1 ++ [probing_starts])
  = (t1, Val ds) ->
  get_audio_durations w2 (List.length image_paths) audio_paths (h2 ++ [probing_starts])
  = (t2, Val ds) ->
  exists front : list string,
    let command :=
      (front
       ++ ["-filter_complex";
           filter_complex (List.length image_paths) font_file text_content]
       ++ output_options output_path)%list in
    invocations
      (fst (create_slideshow w1 image_paths audio_paths
              output_path font_file text_content h1))
    = (invocations h1 ++ map probe_command audio_paths ++ [command])%list
    /\ invocations
         (fst (create_slideshow w2 image_paths audio_paths
                 output_path font_file text_content h2))
       = (invocations h2 ++ map probe_command audio_paths ++ [command])%list.
Proof.
  intros E L NE R1 R2.
  exists (["ffmpeg"]
          ++ flat_map (image_input w1) (combine ds image_paths)
          ++ flat_map audio_input audio_paths)%list.
  cbv zeta.
  rewrite (create_slideshow_invocations _ _ _ _ _ _ _ _ _ L NE R1).
  rewrite (create_slideshow_invocations _ _ _ _ _ _ _ _ _ L NE R2).
  rewrite <- (encode_arguments_ext w1 w2) by exact E.
  unfold encode_arguments. rewrite <- !app_assoc. split; reflexivity.
Qed.

(** ** Input indices *)

Section Inputs.

Variable w : env.

Lemma inputs_of_images (image_paths : list string) :
  forall (ds : list float) (rest : list string),
    List.length image_paths <= List.length ds ->
    inputs_from AtFlag (flat_map (image_input w) (combine ds image_paths) ++ rest)
    = image_paths ++ inputs_from AtFlag rest.
Proof.
  induction image_paths as [|img imgs IH]; intros ds rest L.
  - destruct ds; reflexivity.
  - destruct ds as [|d ds]; [cbn in L; lia|].
    cbn [combine flat_map image_input fst snd app inputs_from String.eqb Ascii.eqb
         Bool.eqb orb].
    cbn. f_equal. apply IH. cbn in L. lia.
Qed.

Lemma inputs_of_audios (audio_paths rest : list string) :
  inputs_from AtFlag (flat_map audio_input audio_paths ++ rest)
  = audio_paths ++ inputs_from AtFlag rest.
Proof.
  induction audio_paths as [|a auds IH]; [reflexivity|].
  cbn. f_equal. exact IH.
Qed.

Lemma input_files_of_arguments (image_paths audio_paths : list string)
    (ds : list float) (output_path font_file text_content : string) :
  List.length image_paths <= List.length ds ->
  input_files (encode_arguments w image_paths audio_paths ds
                 output_path font_file text_content)
  = image_paths ++ audio_paths.
Proof.
  intros L. unfold encode_arguments, input_files. cbn [app].
  rewrite inputs_of_images by exact L. rewrite inputs_of_audios.
  cbn. now rewrite app_nil_r.
Qed.

Lemma references_resolve (k : ascii) (l : list string) :
  forall (pre post : list string),
    Forall2 (fun r x => snd r = k /\ nth_error (pre ++ l ++ post) (fst r) = Some x)
      (map (fun i => (i, k)) (seq (List.length pre) (List.length l))) l.
Proof.
  induction l as [|x l IH]; intros pre post; [constructor|].
  cbn [List.length seq map]. constructor.
  - cbn [fst snd]. split; [reflexivity|].
    rewrite nth_error_app2, Nat.sub_diag by lia. reflexivity.
  - specialize (IH (pre ++ [x]) post).
    rewrite length_app, <- app_assoc in IH. cbn [List.length app] in IH.
    now rewrite Nat.add_1_r in IH.
Qed.

(** X6. In a run that reaches the encoder, the input files of the argument
    list are the images followed by the audio files, and the filter graph
    refers to them by these positions: the [j]-th video reference names the
    input index of the [j]-th image and the [j]-th audio reference names the
    input index of the [j]-th audio file. *)
Theorem stream_references_name_their_inputs (image_paths audio_paths : list string)
    (output_path font_file text_content : string) (h h1 : list event)
    (ds : list float) :
  List.length image_paths = List.length audio_paths ->
  image_paths <> [] ->
  get_audio_durations w (List.length image_paths) audio_paths (h ++ [probing_starts])
  = (h1, Val ds) ->
  exists (command : list string) (video_refs audio_refs : list (nat * ascii)),
    invocations
      (fst (create_slideshow w image_paths audio_paths
              output_path font_file text_content h))
    = invocations h ++ map probe_command audio_paths ++ [command]
    /\ input_files command = image_paths ++ audio_paths
    /\ stream_refs (video_concat_inputs (List.length image_paths)) = Some video_refs
    /\ stream_refs (audio_concat_inputs (List.length image_paths)) = Some audio_refs
    /\ Forall2 (fun r img =>
                  snd r = "v"%char /\ nth_error (input_files command) (fst r) = Some img)
         video_refs image_paths
    /\ Forall2 (fun r a =>
                  snd r = "a"%char /\ nth_error (input_files command) (fst r) = Some a)
         audio_refs audio_paths.
Proof.
  intros L NE R.
  assert (Lds : List.length ds = List.length audio_paths).
  { destruct (get_audio_durations_val _ _ _ _ _ _ R) as [F _].
    symmetry. eapply Forall2_length, F. }
  exists (encode_arguments w image_paths audio_paths ds
            output_path font_file text_content),
    (map (fun i => (i, "v"%char)) (seq 0 (List.length image_paths))),
    (map (fun i => (i, "a"%char))
       (seq (List.length image_paths) (List.length audio_paths))).
  rewrite input_files_of_arguments by lia.
  split; [exact (create_slideshow_invocations w _ _ _ _ _ _ _ _ L NE R)|].
  split; [reflexivity|].
  split.
  { unfold video_concat_inputs.
    now rewrite (stream_refs_join (fun i => i) "v"). }
  split.
  { unfold audio_concat_inputs.
    rewrite (stream_refs_join (fun i => List.length image_paths + i)%nat "a").
    rewrite <- (map_map (fun i => List.length image_paths + i)%nat
                  (fun j => (j, "a"%char))).
    now rewrite map_add_seq, Nat.add_0_r, L. }
  split.
  - exact (references_resolve "v" image_paths [] audio_paths).
  - pose proof (references_resolve "a" audio_paths image_paths []) as F.
    now rewrite app_nil_r in F.
Qed.

End Inputs.

(** ** How runs end *)

Section Outcomes.

Variable w : env.

(** Reading the duration raises nothing but a parse error, a missing key, or
    one of the exceptions that nothing catches; it never exits. *)
Lemma duration_in_raises (out : string) :
  match duration_in w out with
  | Val _ => True
  | Raise e => e = JSONDecodeError \/ (exists k, e = KeyError k) \/ uncaught e = true
  | SysExit _ => False
  end.
Proof.
  unfold duration_in, loads.
  destruct (json_loads w out) as [metadata|];
    [|destruct (loads_raises w out); [now left | now right; right | now right; right]].
  destruct metadata as [| | | | | |items]; try (right; right; reflexivity).
  cbn [getitem].
  destruct (lookup "format" items) as [format|]; [|right; left; now eexists].
  destruct format as [| | | | | |fields]; try (right; right; reflexivity).
  cbn [getitem].
  destruct (lookup "duration" fields) as [value|]; [|right; left; now eexists].
  destruct value as [|b|z|f|s|l|l]; cbn [py_float];
    try exact I; try (right; right; reflexivity).
  - destruct (float_of_Z (if b then 1 else 0)); [exact I | right; right; reflexivity].
  - destruct (float_of_Z z); [exact I | right; right; reflexivity].
  - destruct (float_of_str w s); [exact I | right; right; reflexivity].
Qed.

(** The three ways a probe ends. *)
Lemma get_duration_cases (filepath : string) (h : list event) :
  (exists d, get_duration w filepath h
             = (h ++ [Invoke (probe_command filepath)], Val d))
  \/ (exists msgs, msgs <> []
        /\ get_duration w filepath h
           = (h ++ Invoke (probe_command filepath) :: map (Print Stderr) msgs,
              SysExit 1))
  \/ (exists e, uncaught e = true
        /\ get_duration w filepath h
           = (h ++ [Invoke (probe_command filepath)], Raise e)).
Proof.
  rewrite get_duration_run. cbv zeta.
  destruct (spawn w h (probe_command filepath)) as [|code out err|out err|].
  - right; left. eexists [_]. split; [discriminate|]. now rewrite <- app_assoc.
  - right; left. eexists [_; _]. split; [discriminate|]. now rewrite <- app_assoc.
  - pose proof (duration_in_raises out) as D.
    destruct (duration_in w out) as [d|e|c]; [left; now eexists| |destruct D].
    destruct D as [->|[(k & ->)|U]].
    + right; left. eexists [_]. split; [discriminate|]. now rewrite <- app_assoc.
    + right; left. eexists [_]. split; [discriminate|]. now rewrite <- app_assoc.
    + right; right. exists e. split; [exact U|]. destruct e; try discriminate U; reflexivity.
  - right; right. exists OtherError. now split.
Qed.

(** What the probing loop has done when it ends, however it ends: it has
    probed the first [k] files, in order; it has returned after all of them,
    or stopped at the [k]-th on an exit with status 1 right after a
    diagnostic, or on an exception that nothing catches, raised by the
    probe of one of the files right after its invocation. *)
Lemma durations_loop_cases (num_files : nat) (l : list string) :
  forall (i : nat) (acc : list float) (h : list event),
  exists (k : nat) (h' : list event) (r : outcome (list float)),
    for_each (combine (seq i (List.length l)) l)
      (fun durations '(i, audio_path) =>
         print Stdout
           (Text ("  Processing audio file " ++ Py.str_of_nat (i + 1) ++ "/"
                  ++ Py.str_of_nat num_files ++ ": " ++ audio_path)%string) ;;
         duration <- get_duration w audio_path ;;
         ret (durations ++ [duration]))%monad
      acc h = (h', r)
    /\ invocations h' = invocations h ++ map probe_command (firstn k l)
    /\ ((exists ds, r = Val ds /\ k = List.length l)
        \/ (r = SysExit 1 /\ exists t ln, h' = t ++ [Print Stderr ln])
        \/ (exists e a t,
              uncaught e = true /\ r = Raise e
              /\ In a l /\ h' = t ++ [Invoke (probe_command a)])).
Proof.
  induction l as [|a l IH]; intros i acc h.
  - exists 0, h, (Val acc). cbn. rewrite app_nil_r.
    split; [reflexivity|]. split; [reflexivity|]. left. now eexists.
  - cbn [List.length seq combine for_each].
    unfold bind at 1. rewrite probe_turn.
    destruct (get_duration_cases a (h ++ [progress_line num_files i a]))
      as [(d & E)|[(msgs & N & E)|(e & U & E)]]; rewrite E.
    + destruct (IH (S i) (acc ++ [d])
                  ((h ++ [progress_line num_files i a])
                   ++ [Invoke (probe_command a)]))
        as (k & h' & r & R & I & C).
      exists (S k), h', r. split; [exact R|]. split.
      * rewrite I, !invocations_app. cbn. rewrite app_nil_r, <- app_assoc.
        reflexivity.
      * destruct C as [(ds & -> & ->)|[C|(e & b & t & U & -> & Hb & ->)]];
          [left; now eexists | now right; left |].
        right; right. exists e, b, t. repeat split; [exact U | now right].
    + exists 1, ((h ++ [progress_line num_files i a])
                 ++ Invoke (probe_command a) :: map (Print Stderr) msgs), (SysExit 1).
      split; [reflexivity|]. split.
      * change (Invoke (probe_command a) :: map (Print Stderr) msgs)
          with ([Invoke (probe_command a)] ++ map (Print Stderr) msgs).
        rewrite !invocations_app, invocations_diagnostics. cbn.
        now rewrite !app_nil_r.
      * right; left. split; [reflexivity|].
        destruct (exists_last N) as (ms & m & ->).
        exists ((h ++ [progress_line num_files i a])
                ++ Invoke (probe_command a) :: map (Print Stderr) ms), m.
        rewrite map_app, <- !app_assoc. reflexivity.
    + exists 1, ((h ++ [progress_line num_files i a])
                 ++ [Invoke (probe_command a)]), (Raise e).
      split; [reflexivity|]. split.
      * rewrite !invocations_app. cbn. now rewrite !app_nil_r.
      * right; right. exists e, a, (h ++ [progress_line num_files i a]).
        repeat split; [exact U | now left].
Qed.

(** The ways the encode step ends: it returns when the encoder exits with
    status 0, and exits with status 1 right after a diagnostic otherwise. *)
Lemma execute_ffmpeg_cases (command : list string) (output_path : string)
    (h : list event) :
  (exists out err,
     spawn w h command = Completed out err
     /\ execute_ffmpeg w command output_path h
        = (h ++ [Invoke command;
                 Print Stdout
                   (Text (String Py.NEWLINE "FFmpeg process finished successfully."));
                 Print Stdout (Text ("Output saved to: " ++ output_path)%string)],
           Val tt))
  \/ ((forall out err, spawn w h command <> Completed out err)
      /\ exists t ln,
           execute_ffmpeg w command output_path h = (t ++ [Print Stderr ln], SysExit 1)).
Proof.
  unfold execute_ffmpeg, try_except, bind, subprocess_run, print, sys_exit.
  destruct (spawn w h command) as [|code out err|out err|].
  - right. split; [discriminate|]. now eexists _, _.
  - right. split; [discriminate|]. now eexists _, _.
  - left. exists out, err. split; [reflexivity|]. now rewrite <- !app_assoc.
  - right. split; [discriminate|]. now eexists _, _.
Qed.

(** The trace of a probing loop that returns: for each file in turn, its
    progress line and its probe, and nothing else. *)
Lemma durations_loop_trace (num_files : nat) (l : list string) :
  forall (i : nat) (acc : list float) (h h' : list event) (out : list float),
    for_each (combine (seq i (List.length l)) l)
      (fun durations '(i, audio_path) =>
         print Stdout
           (Text ("  Processing audio file " ++ Py.str_of_nat (i + 1) ++ "/"
                  ++ Py.str_of_nat num_files ++ ": " ++ audio_path)%string) ;;
         duration <- get_duration w audio_path ;;
         ret (durations ++ [duration]))%monad
      acc h = (h', Val out) ->
    h' = h ++ flat_map (probe_events num_files) (combine (seq i (List.length l)) l).
Proof.
  induction l as [|a l IH]; intros i acc h h' out R.
  - cbn in R. injection R as <- _. cbn. now rewrite app_nil_r.
  - cbn [List.length seq combine for_each] in R.
    unfold bind at 1 in R. rewrite probe_turn in R.
    destruct (get_duration w a (h ++ [progress_line num_files i a]))
      as [h1 [d|e|c]] eqn:G; try discriminate R.
    apply IH in R. apply get_duration_val in G. destruct G as [-> _].
    rewrite R. cbn [List.length seq combine flat_map probe_events fst snd].
    rewrite <- !app_assoc. reflexivity.
Qed.

(** X7. While the probes return, the run prints, for the [i]-th audio file,
    the progress line [i+1/N] and then invokes its probe: one file after
    the other, in input order, with nothing in between. *)
Theorem probing_is_sequential (num_files : nat) (audio_paths : list string)
    (h h' : list event) (ds : list float) :
  get_audio_durations w num_files audio_paths h = (h', Val ds) ->
  h' = h ++ flat_map (probe_events num_files) (enumerate audio_paths)
  /\ List.length ds = List.length audio_paths.
Proof.
  intros R. split.
  - exact (durations_loop_trace num_files audio_paths 0 [] h h' ds R).
  - destruct (get_audio_durations_val w _ _ _ _ _ R) as [F _].
    symmetry. eapply Forall2_length, F.
Qed.

(** When the probes of [pre] have returned and the probe of the next file
    does not, the loop ends as that probe does. *)
Lemma get_audio_durations_stops (num_files : nat) (pre post : list string)
    (a : string) (h h1 t : list event) (ds : list float) (r : outcome float) :
  get_audio_durations w num_files pre h = (h1, Val ds) ->
  get_duration w a (h1 ++ [progress_line num_files (List.length pre) a]) = (t, r) ->
  (forall d, r <> Val d) ->
  get_audio_durations w num_files (pre ++ a :: post) h
  = (t, match r with
        | Val _ => Val ds
        | Raise e => Raise e
        | SysExit c => SysExit c
        end).
Proof.
  intros R G NV. unfold get_audio_durations, enumerate in *.
  rewrite combine_seq_app, for_each_app. unfold bind at 1. rewrite R.
  cbn [List.length seq combine for_each Nat.add].
  unfold bind at 1. rewrite probe_turn, G.
  destruct r as [d|e|c]; [now destruct (NV d) | reflexivity | reflexivity].
Qed.

(** The ways a run goes: it is refused, or the probing stops it, or it
    reaches the encode step. *)
Lemma create_slideshow_cases (image_paths audio_paths : list string)
    (output_path font_file text_content : string) (h : list event) :
  (exists msg : string,
     create_slideshow w image_paths audio_paths output_path font_file text_content h
     = (h ++ [Print Stderr (Text msg)], SysExit 1))
  \/ (exists (k : nat) (h' : list event) (r : outcome unit),
        create_slideshow w image_paths audio_paths
          output_path font_file text_content h = (h', r)
        /\ invocations h' = invocations h ++ map probe_command (firstn k audio_paths)
        /\ ((r = SysExit 1 /\ exists t ln, h' = t ++ [Print Stderr ln])
            \/ (exists e a t,
                  uncaught e = true /\ r = Raise e
                  /\ In a audio_paths /\ h' = t ++ [Invoke (probe_command a)])))
  \/ (exists (h1 : list event) (ds : list float),
        get_audio_durations w (List.length image_paths) audio_paths
          (h ++ [probing_starts]) = (h1, Val ds)
        /\ invocations h1 = invocations h ++ map probe_command audio_paths
        /\ create_slideshow w image_paths audio_paths
             output_path font_file text_content h
           = execute_ffmpeg w
               (encode_arguments w image_paths audio_paths ds
                  output_path font_file text_content)
               output_path
               (h1 ++ encode_announced
                        (encode_arguments w image_paths audio_paths ds
                           output_path font_file text_content))).
Proof.
  destruct (List.length image_paths =? List.length audio_paths)%nat eqn:L;
    [|left; unfold create_slideshow; rewrite L; cbn; now eexists].
  destruct (List.length image_paths =? 0)%nat eqn:Z;
    [left; unfold create_slideshow; rewrite L, Z; cbn; now eexists|].
  right.
  destruct (durations_loop_cases (List.length image_paths) audio_paths 0 []
              (h ++ [probing_starts]))
    as (k & h' & r & R & I & C).
  rewrite invocations_app in I. cbn [probing_starts invocations flat_map app] in I.
  rewrite app_nil_r in I.
  fold (enumerate audio_paths) in R.
  fold (get_audio_durations w (List.length image_paths) audio_paths) in R.
  assert (S : forall r',
             r' = match r with
                  | Val _ => r'
                  | Raise e => Raise e
                  | SysExit c => SysExit c
                  end ->
             (forall ds, r <> Val ds) ->
             create_slideshow w image_paths audio_paths
               output_path font_file text_content h = (h', r')).
  { intros r' E NV. unfold create_slideshow. rewrite L, Z. cbn [negb].
    unfold bind at 1. unfold print at 1.
    unfold bind at 1. unfold probing_starts in R. rewrite R.
    destruct r as [ds|e|c]; [now destruct (NV ds) | now rewrite E | now rewrite E]. }
  destruct C as [(ds & -> & ->)|[(-> & t & ln & ->)|(e & a & t & U & -> & Ha & ->)]].
  - right. exists h', ds. rewrite firstn_all in I.
    split; [exact R|]. split; [exact I|].
    apply Nat.eqb_eq in L. apply Nat.eqb_neq in Z.
    assert (NE : image_paths <> []) by (intros ->; now apply Z).
    exact (proj1 (create_slideshow_encodes w image_paths audio_paths
                    output_path font_file text_content h h' ds L NE R)).
  - left. exists k, (t ++ [Print Stderr ln]), (SysExit 1).
    split; [apply S; [reflexivity | discriminate]|].
    split; [exact I|]. left. split; [reflexivity|]. now exists t, ln.
  - left. exists k, (t ++ [Invoke (probe_command a)]), (Raise e).
    split; [apply S; [reflexivity | discriminate]|].
    split; [exact I|]. right. now exists e, a, t.
Qed.


(** X9. The external invocations of any run are probes of the first [k]
    audio files, in input order and one each, followed by at most one
    invocation of the encoder; the encoder is invoked only after every
    audio file has been probed, and nothing is invoked after it. *)
Theorem invocation_discipline (image_paths audio_paths : list string)
    (output_path font_file text_content : string) (h : list event) :
  exists (k : nat) (encodes : list (list string)),
    invocations
      (fst (create_slideshow w image_paths audio_paths
              output_path font_file text_content h))
    = invocations h ++ map probe_command (firstn k audio_paths) ++ encodes
    /\ (encodes = []
        \/ (List.length audio_paths <= k
            /\ exists args, encodes = [("ffmpeg"%string :: args)])).
Proof.
  destruct (create_slideshow_cases image_paths audio_paths
              output_path font_file text_content h)
    as [(msg & ->)|[(k & h' & r & -> & I & _)|(h1 & ds & _ & I & ->)]].
  - exists 0, []. cbn [fst firstn map app]. split; [|now left].
    rewrite invocations_app. reflexivity.
  - exists k, []. cbn [fst]. rewrite app_nil_r. split; [exact I | now left].
  - exists (List.length audio_paths),
      [encode_arguments w image_paths audio_paths ds
         output_path font_file text_content].
    split.
    + rewrite execute_ffmpeg_invocations, invocations_app, I, firstn_all.
      cbn [encode_announced invocations flat_map app].
      rewrite app_nil_r, <- app_assoc. reflexivity.
    + right. split; [lia|]. unfold encode_arguments. cbn [app]. now eexists.
Qed.

(** X10. When every probe returns and the encoder exits with status 0, the
    run returns, and its trace is, in order: the opening line, the progress
    line and the probe of each audio file, the closing line of the probing,
    the announcement with the quoted command line, the invocation of the
    encoder, and the two success lines, the last naming the output path.
    Nothing goes to the error stream. *)
Theorem successful_run (image_paths audio_paths : list string)
    (output_path font_file text_content : string) (h h1 : list event)
    (ds : list float) (out err : string) :
  let command := encode_arguments w image_paths audio_paths ds
                   output_path font_file text_content in
  List.length image_paths = List.length audio_paths ->
  image_paths <> [] ->
  get_audio_durations w (List.length image_paths) audio_paths (h ++ [probing_starts])
  = (h1, Val ds) ->
  spawn w (h1 ++ encode_announced command) command = Completed out err ->
  create_slideshow w image_paths audio_paths output_path font_file text_content h
  = (h ++ [probing_starts]
       ++ flat_map (probe_events (List.length image_paths)) (enumerate audio_paths)
       ++ encode_announced command
       ++ [Invoke command;
           Print Stdout
             (Text (String Py.NEWLINE "FFmpeg process finished successfully."));
           Print Stdout (Text ("Output saved to: " ++ output_path)%string)],
     Val tt).
Proof.
  intros command L NE R E.
  destruct (create_slideshow_encodes w image_paths audio_paths
              output_path font_file text_content h h1 ds L NE R) as [-> _].
  fold command. fold (encode_announced command).
  destruct (execute_ffmpeg_cases command output_path
              (h1 ++ encode_announced command))
    as [(o & e & _ & ->)|(NC & _)]; [|now destruct (NC out err)].
  rewrite (durations_loop_trace _ audio_paths 0 [] _ _ _ R).
  fold (enumerate audio_paths). rewrite <- !app_assoc. reflexivity.
Qed.

(** X11. When every probe returns and the encoder exits with a non-zero
    status, the run exits with status 1 after three lines on the error
    stream: the error itself, then the output text and the error text of the
    encoder, each forwarded as it was captured. *)
Theorem encoder_failure_forwarded (image_paths audio_paths : list string)
    (output_path font_file text_content : string) (h h1 : list event)
    (ds : list float) (code : Z) (out err : string) :
  let command := encode_arguments w image_paths audio_paths ds
                   output_path font_file text_content in
  List.length image_paths = List.length audio_paths ->
  image_paths <> [] ->
  get_audio_durations w (List.length image_paths) audio_paths (h ++ [probing_starts])
  = (h1, Val ds) ->
  spawn w (h1 ++ encode_announced command) command = Failed code out err ->
  create_slideshow w image_paths audio_paths output_path font_file text_content h
  = (h1 ++ encode_announced command
       ++ [Invoke command;
           Print Stderr
             (TextExn "Error running FFmpeg command: "
                (CalledProcessError command code out err));
           Print Stderr (Text ("FFmpeg stdout:" ++ String Py.NEWLINE out)%string);
           Print Stderr (Text ("FFmpeg stderr:" ++ String Py.NEWLINE err)%string)],
     SysExit 1).
Proof.
  intros command L NE R E.
  destruct (create_slideshow_encodes w image_paths audio_paths
              output_path font_file text_content h h1 ds L NE R) as [-> _].
  fold command. fold (encode_announced command).
  unfold execute_ffmpeg, try_except, bind, subprocess_run, print, sys_exit.
  rewrite E. rewrite <- !app_assoc. reflexivity.
Qed.

(** X12. When the output of a probe has a duration entry that [float]
    rejects, or has a [format] entry or a document of the wrong type, the
    prober catches nothing: the exception escapes from the run right after
    that probe, the program prints no diagnostic of its own and the encoder
    is not invoked. *)
Theorem ill_typed_duration_escapes (image_paths pre post : list string)
    (a : string) (output_path font_file text_content : string)
    (h h1 : list event) (ds : list float) (out err : string) (e : exn) :
  List.length image_paths = List.length (pre ++ a :: post) ->
  get_audio_durations w (List.length image_paths) pre (h ++ [probing_starts])
  = (h1, Val ds) ->
  spawn w (h1 ++ [progress_line (List.length image_paths) (List.length pre) a])
    (probe_command a) = Completed out err ->
  duration_in w out = Raise e ->
  uncaught e = true ->
  create_slideshow w image_paths (pre ++ a :: post)
    output_path font_file text_content h
  = (h1 ++ [progress_line (List.length image_paths) (List.length pre) a;
            Invoke (probe_command a)],
     Raise e).
Proof.
  intros L R E D U.
  assert (G : get_duration w a
                (h1 ++ [progress_line (List.length image_paths) (List.length pre) a])
              = ((h1 ++ [progress_line (List.length image_paths) (List.length pre) a])
                 ++ [Invoke (probe_command a)], Raise e)).
  { rewrite get_duration_run. cbv zeta. rewrite E, D.
    destruct e; try discriminate U; reflexivity. }
  pose proof (get_audio_durations_stops _ pre post a _ _ _ ds _ R G) as T.
  unfold create_slideshow. cbv zeta.
  rewrite (proj2 (Nat.eqb_eq _ _) L). cbn [negb].
  destruct (List.length image_paths =? 0)%nat eqn:Z.
  { apply Nat.eqb_eq in Z. rewrite Z, length_app in L. cbn in L. lia. }
  unfold bind at 1. unfold print at 1.
  unfold bind at 1. unfold probing_starts in T. rewrite T by discriminate.
  rewrite <- app_assoc. reflexivity.
Qed.

End Outcomes.

(** ** The properties at work on the sample environments *)

(** The scenario of the specification: two pairs lasting 5 and 7.5 seconds. *)
Example scenario_two_pairs :
  invocations
    (fst (create_slideshow sample ["a.jpg"; "b.jpg"] ["a.mp3"; "b.mp3"]
            "out.mp4" "font.ttf" "Hi:there" []))
  = [probe_command "a.mp3"; probe_command "b.mp3";
     ["ffmpeg"; "-loop"; "1"; "-t"; "5.0"; "-i"; "a.jpg";
      "-loop"; "1"; "-t"; "7.5"; "-i"; "b.jpg";
      "-i"; "a.mp3"; "-i"; "b.mp3";
      "-filter_complex"; filter_complex 2 "font.ttf" "Hi:there";
      "-c:v"; "libx264"; "-preset"; "medium"; "-crf"; "23";
      "-c:a"; "aac"; "-b:a"; "128k"; "-shortest"; "-y"; "out.mp4"]]
  /\ String.prefix
       "[0:v][1:v]concat=n=2:v=1:a=0[v_slideshow]; [2:a][3:a]concat=n=2:v=0:a=1[a_combined]; [v_slideshow]drawtext=text='Hi\:there':"
       (filter_complex 2 "font.ttf" "Hi:there") = true.
Proof. split; vm_compute; reflexivity. Qed.

(** Without the probe tool the run stops at the first probe. *)
Example scenario_missing_probe_tool :
  create_slideshow no_probe_tool ["a.jpg"] ["a.mp3"] "out.mp4" "font.ttf" "Hi" []
  = ([probing_starts; progress_line 1 0 "a.mp3"; Invoke (probe_command "a.mp3");
      Print Stderr (Text (tool_missing "ffprobe"))],
     SysExit 1).
Proof. vm_compute. reflexivity. Qed.

(** The quoting comes before the escaping: the apostrophes that the quoting
    adds are escaped as well. *)
Example scenario_font_with_space :
  escaped_font_file "my font.ttf" = "\'my font.ttf\'"%string.
Proof. vm_compute. reflexivity. Qed.

Lemma invalid_counts_abort_witness :
  (exists msg : string,
     create_slideshow sample ["a.jpg"; "b.jpg"; "c.jpg"] ["a.mp3"; "b.mp3"]
       "out.mp4" "font.ttf" "Hi" []
     = ([] ++ [Print Stderr (Text msg)], SysExit 1))
  /\ invocations
       (fst (create_slideshow sample ["a.jpg"; "b.jpg"; "c.jpg"] ["a.mp3"; "b.mp3"]
               "out.mp4" "font.ttf" "Hi" []))
     = invocations [].
Proof.
  apply (invalid_counts_abort sample ["a.jpg"; "b.jpg"; "c.jpg"] ["a.mp3"; "b.mp3"]).
  left. simpl. lia.
Defined.

Lemma encode_inputs_follow_pairs_witness :
  invocations
    (fst (create_slideshow sample ["a.jpg"; "b.jpg"] ["a.mp3"; "b.mp3"]
            "out.mp4" "font.ttf" "Hi:there" []))
  = invocations [] ++ map probe_command ["a.mp3"; "b.mp3"]
    ++ [["ffmpeg"]
        ++ flat_map (image_input sample)
             (combine [five; seven_and_half] ["a.jpg"; "b.jpg"])
        ++ flat_map audio_input ["a.mp3"; "b.mp3"]
        ++ ["-filter_complex"; filter_complex 2 "font.ttf" "Hi:there"]
        ++ output_options "out.mp4"]
  /\ List.length (combine [five; seven_and_half] ["a.jpg"; "b.jpg"]) = 2
  /\ List.length ["a.mp3"; "b.mp3"] = 2
  /\ Forall2 (fun a d => exists h', probe_yields sample h' a d)
       ["a.mp3"; "b.mp3"] [five; seven_and_half].
Proof.
  apply (encode_inputs_follow_pairs sample ["a.jpg"; "b.jpg"] ["a.mp3"; "b.mp3"]
           "out.mp4" "font.ttf" "Hi:there" []
           (fst (get_audio_durations sample 2 ["a.mp3"; "b.mp3"] [probing_starts]))
           [five; seven_and_half]).
  - reflexivity.
  - discriminate.
  - vm_compute. reflexivity.
Defined.

Lemma encode_arguments_end_with_options_witness :
  exists front : list string,
    invocations
      (fst (create_slideshow sample ["a.jpg"; "b.jpg"] ["a.mp3"; "b.mp3"]
              "out.mp4" "font.ttf" "Hi:there" []))
    = invocations [] ++ map probe_command ["a.mp3"; "b.mp3"]
      ++ [front
          ++ ["-c:v"; "libx264"; "-preset"; "medium"; "-crf"; "23";
              "-c:a"; "aac"; "-b:a"; "128k"; "-shortest"; "-y"; "out.mp4"]].
Proof.
  apply (encode_arguments_end_with_options sample ["a.jpg"; "b.jpg"] ["a.mp3"; "b.mp3"]
           "out.mp4" "font.ttf" "Hi:there" []
           (fst (get_audio_durations sample 2 ["a.mp3"; "b.mp3"] [probing_starts]))
           [five; seven_and_half]).
  - reflexivity.
  - discriminate.
  - vm_compute. reflexivity.
Defined.


Lemma get_duration_returns_probed_value_witness :
  exists (out err : string) (metadata format value : json),
    spawn sample [] (probe_command "a.mp3") = Completed out err
    /\ json_loads sample out = Some metadata
    /\ getitem metadata "format" = Val format
    /\ getitem format "duration" = Val value
    /\ py_float sample value = Val five.
Proof.
  apply (get_duration_returns_probed_value sample "a.mp3" []
           [Invoke (probe_command "a.mp3")] five).
  vm_compute. reflexivity.
Defined.

(** C7, as the claim words it, fails: for a file whose probe reports -1.5
    seconds the prober returns -1.5, which is not non-negative. *)
Lemma get_duration_negative :
  get_duration sample "reversed.mp3" []
  = ([Invoke (probe_command "reversed.mp3")], Val minus_one_and_half)
  /\ nonnegative minus_one_and_half = false.
Proof. split; vm_compute; reflexivity. Qed.

Lemma encode_arguments_deterministic_witness :
  exists front : list string,
    let command :=
      front ++ ["-filter_complex"; filter_complex 2 "font.ttf" "Hi:there"]
      ++ output_options "out.mp4" in
    invocations
      (fst (create_slideshow sample ["a.jpg"; "b.jpg"] ["a.mp3"; "b.mp3"]
              "out.mp4" "font.ttf" "Hi:there" []))
    = invocations [] ++ map probe_command ["a.mp3"; "b.mp3"] ++ [command]
    /\ invocations
         (fst (create_slideshow sample_again ["a.jpg"; "b.jpg"] ["a.mp3"; "b.mp3"]
                 "out.mp4" "font.ttf" "Hi:there" [Print Stdout (Text "again")]))
       = invocations [Print Stdout (Text "again")]
         ++ map probe_command ["a.mp3"; "b.mp3"] ++ [command].
Proof.
  apply (encode_arguments_deterministic sample sample_again
           ["a.jpg"; "b.jpg"] ["a.mp3"; "b.mp3"] "out.mp4" "font.ttf" "Hi:there"
           [] [Print Stdout (Text "again")]
           (fst (get_audio_durations sample 2 ["a.mp3"; "b.mp3"] [probing_starts]))
           (fst (get_audio_durations sample_again 2 ["a.mp3"; "b.mp3"]
                   [Print Stdout (Text "again"); probing_starts]))
           [five; seven_and_half]).
  - reflexivity.
  - reflexivity.
  - discriminate.
  - vm_compute. reflexivity.
  - vm_compute. reflexivity.
Defined.

(** ** Further properties at work *)

Lemma escaped_text_reads_back_witness :
  unescape (escaped_text_content "Hi:there, it's [x]") = "Hi:there, it's [x]"%string.
Proof.
  apply (escaped_text_reads_back "Hi:there, it's [x]"). reflexivity.
Defined.

Lemma plain_text_verbatim_witness :
  escaped_text_content "Centered Text" = "Centered Text"%string.
Proof.
  apply (plain_text_verbatim "Centered Text"). reflexivity.
Defined.

Lemma safe_font_verbatim_witness :
  escaped_font_file "/usr/share/fonts/DejaVuSans-Bold.ttf"
  = "/usr/share/fonts/DejaVuSans-Bold.ttf"%string.
Proof.
  apply (safe_font_verbatim "/usr/share/fonts/DejaVuSans-Bold.ttf").
  - discriminate.
  - reflexivity.
Defined.

Lemma stream_references_name_their_inputs_witness :
  exists (command : list string) (video_refs audio_refs : list (nat * ascii)),
    invocations
      (fst (create_slideshow sample ["a.jpg"; "b.jpg"] ["a.mp3"; "b.mp3"]
              "out.mp4" "font.ttf" "Hi:there" []))
    = invocations [] ++ map probe_command ["a.mp3"; "b.mp3"] ++ [command]
    /\ input_files command = ["a.jpg"; "b.jpg"] ++ ["a.mp3"; "b.mp3"]
    /\ stream_refs (video_concat_inputs 2) = Some video_refs
    /\ stream_refs (audio_concat_inputs 2) = Some audio_refs
    /\ Forall2 (fun r img =>
                  snd r = "v"%char /\ nth_error (input_files command) (fst r) = Some img)
         video_refs ["a.jpg"; "b.jpg"]
    /\ Forall2 (fun r a =>
                  snd r = "a"%char /\ nth_error (input_files command) (fst r) = Some a)
         audio_refs ["a.mp3"; "b.mp3"].
Proof.
  apply (stream_references_name_their_inputs sample
           ["a.jpg"; "b.jpg"] ["a.mp3"; "b.mp3"] "out.mp4" "font.ttf" "Hi:there" []
           (fst (get_audio_durations sample 2 ["a.mp3"; "b.mp3"] [probing_starts]))
           [five; seven_and_half]).
  - reflexivity.
  - discriminate.
  - vm_compute. reflexivity.
Defined.

Lemma probing_is_sequential_witness :
  fst (get_audio_durations sample 2 ["a.mp3"; "b.mp3"] [probing_starts])
  = [probing_starts]
    ++ flat_map (probe_events 2) (enumerate ["a.mp3"; "b.mp3"])
  /\ List.length [five; seven_and_half] = List.length ["a.mp3"; "b.mp3"].
Proof.
  apply (probing_is_sequential sample 2 ["a.mp3"; "b.mp3"] [probing_starts]
           (fst (get_audio_durations sample 2 ["a.mp3"; "b.mp3"] [probing_starts]))
           [five; seven_and_half]).
  vm_compute. reflexivity.
Defined.

Lemma successful_run_witness :
  create_slideshow sample ["a.jpg"; "b.jpg"] ["a.mp3"; "b.mp3"]
    "out.mp4" "font.ttf" "Hi:there" []
  = ([] ++ [probing_starts]
       ++ flat_map (probe_events 2) (enumerate ["a.mp3"; "b.mp3"])
       ++ encode_announced
            (encode_arguments sample ["a.jpg"; "b.jpg"] ["a.mp3"; "b.mp3"]
               [five; seven_and_half] "out.mp4" "font.ttf" "Hi:there")
       ++ [Invoke
             (encode_arguments sample ["a.jpg"; "b.jpg"] ["a.mp3"; "b.mp3"]
                [five; seven_and_half] "out.mp4" "font.ttf" "Hi:there");
           Print Stdout
             (Text (String Py.NEWLINE "FFmpeg process finished successfully."));
           Print Stdout (Text "Output saved to: out.mp4")],
     Val tt).
Proof.
  apply (successful_run sample ["a.jpg"; "b.jpg"] ["a.mp3"; "b.mp3"]
           "out.mp4" "font.ttf" "Hi:there" []
           (fst (get_audio_durations sample 2 ["a.mp3"; "b.mp3"] [probing_starts]))
           [five; seven_and_half] "" "").
  - reflexivity.
  - discriminate.
  - vm_compute. reflexivity.
  - vm_compute. reflexivity.
Defined.

Lemma encoder_failure_forwarded_witness :
  create_slideshow encoder_fails ["a.jpg"; "b.jpg"] ["a.mp3"; "b.mp3"]
    "out.mp4" "font.ttf" "Hi:there" []
  = (fst (get_audio_durations encoder_fails 2 ["a.mp3"; "b.mp3"] [probing_starts])
       ++ encode_announced
            (encode_arguments encoder_fails ["a.jpg"; "b.jpg"] ["a.mp3"; "b.mp3"]
               [five; seven_and_half] "out.mp4" "font.ttf" "Hi:there")
       ++ [Invoke
             (encode_arguments encoder_fails ["a.jpg"; "b.jpg"] ["a.mp3"; "b.mp3"]
                [five; seven_and_half] "out.mp4" "font.ttf" "Hi:there");
           Print Stderr
             (TextExn "Error running FFmpeg command: "
                (CalledProcessError
                   (encode_arguments encoder_fails ["a.jpg"; "b.jpg"]
                      ["a.mp3"; "b.mp3"] [five; seven_and_half]
                      "out.mp4" "font.ttf" "Hi:there")
                   1 "" "Conversion failed!"));
           Print Stderr (Text ("FFmpeg stdout:" ++ String Py.NEWLINE "")%string);
           Print Stderr
             (Text ("FFmpeg stderr:" ++ String Py.NEWLINE "Conversion failed!")%string)],
     SysExit 1).
Proof.
  apply (encoder_failure_forwarded encoder_fails ["a.jpg"; "b.jpg"] ["a.mp3"; "b.mp3"]
           "out.mp4" "font.ttf" "Hi:there" []
           (fst (get_audio_durations encoder_fails 2 ["a.mp3"; "b.mp3"]
                   [probing_starts]))
           [five; seven_and_half] 1%Z "" "Conversion failed!").
  - reflexivity.
  - discriminate.
  - vm_compute. reflexivity.
  - vm_compute. reflexivity.
Defined.

Lemma ill_typed_duration_escapes_witness :
  create_slideshow unknown_duration ["a.jpg"; "b.jpg"] (["a.mp3"] ++ "stream.mp3" :: [])
    "out.mp4" "font.ttf" "Hi" []
  = (fst (get_audio_durations unknown_duration 2 ["a.mp3"] [probing_starts])
       ++ [progress_line 2 1 "stream.mp3"; Invoke (probe_command "stream.mp3")],
     Raise ValueError).
Proof.
  apply (ill_typed_duration_escapes unknown_duration ["a.jpg"; "b.jpg"]
           ["a.mp3"] [] "stream.mp3" "out.mp4" "font.ttf" "Hi" []
           (fst (get_audio_durations unknown_duration 2 ["a.mp3"] [probing_starts]))
           [five] (probe_output "N/A") "" ValueError).
  - reflexivity.
  - vm_compute. reflexivity.
  - vm_compute. reflexivity.
  - vm_compute. reflexivity.
  - reflexivity.
Defined.


